(** * Vault AppRole helpers

    A shallow embedding of [scripts/_vault_commands.py]: the two helpers
    [_ensure_approle_auth_enabled] and [_generate_secret_id], the Python
    objects they handle, the exceptions they raise, and their contracts. *)

From Stdlib Require Import String Ascii List ZArith Bool Lia DecimalString.
From Stdlib Require Import Floats.SpecFloat.
Import ListNotations.

Local Open Scope string_scope.

(** ** Python objects

    The objects [json.loads] can build.  A [str] is kept as its UTF-8
    bytes; a [dict] keeps its items in insertion order, every key a
    [str], as a decoded JSON object has them. *)

#[warnings="-register-all"]
Inductive pyobj : Type :=
| PyNone
| PyBool (b : bool)
| PyInt (n : Z)
| PyFloat (x : spec_float)
| PyStr (s : string)
| PyList (items : list pyobj)
| PyDict (items : list (string * pyobj)).

(** [type(o).__name__] *)
Definition type_name (o : pyobj) : string :=
  match o with
  | PyNone => "NoneType"
  | PyBool _ => "bool"
  | PyInt _ => "int"
  | PyFloat _ => "float"
  | PyStr _ => "str"
  | PyList _ => "list"
  | PyDict _ => "dict"
  end.

(** [bool(o)]: [None], [False], zero, and the empty [str], [list] and
    [dict] are false; a NaN is true. *)
Definition truthy (o : pyobj) : bool :=
  match o with
  | PyNone => false
  | PyBool b => b
  | PyInt n => negb (n =? 0)%Z
  | PyFloat (S754_zero _) => false
  | PyFloat _ => true
  | PyStr "" => false
  | PyStr _ => true
  | PyList [] => false
  | PyList _ => true
  | PyDict [] => false
  | PyDict _ => true
  end.

Definition is_str (o : pyobj) : bool :=
  match o with PyStr _ => true | _ => false end.

Definition is_dict (o : pyobj) : bool :=
  match o with PyDict _ => true | _ => false end.

(** *** dict *)

Definition dict_keys {V : Type} (d : list (string * V)) : list string :=
  map fst d.

(** [d[key]], [None] standing for [KeyError]. *)
Fixpoint dict_getitem {V : Type} (d : list (string * V)) (key : string)
  : option V :=
  match d with
  | [] => None
  | (k, v) :: d' => if String.eqb key k then Some v else dict_getitem d' key
  end.

(** [key in d] *)
Definition dict_contains {V : Type} (d : list (string * V)) (key : string)
  : bool :=
  match dict_getitem d key with Some _ => true | None => false end.

(** [d.get(key, default)] *)
Definition dict_get {V : Type} (d : list (string * V)) (key : string)
  (default : V) : V :=
  match dict_getitem d key with Some v => v | None => default end.

(** [d[key] = v]: a key already there keeps its place. *)
Fixpoint dict_setitem {V : Type} (d : list (string * V)) (key : string)
  (v : V) : list (string * V) :=
  match d with
  | [] => [(key, v)]
  | (k, v0) :: d' =>
      if String.eqb key k then (k, v) :: d'
      else (k, v0) :: dict_setitem d' key v
  end.

(** [dict(pairs)] *)
Definition dict_of_pairs {V : Type} (pairs : list (string * V))
  : list (string * V) :=
  fold_left (fun d kv => dict_setitem d (fst kv) (snd kv)) pairs [].

(** *** str and list membership *)

(** [s.startswith(p)] *)
Fixpoint startswith (s p : string) {struct p} : bool :=
  match p, s with
  | EmptyString, _ => true
  | String a p', String b s' => Ascii.eqb a b && startswith s' p'
  | String _ _, EmptyString => false
  end.

(** [sub in s] for two [str] *)
Fixpoint str_contains (s sub : string) : bool :=
  startswith s sub ||
  match s with
  | EmptyString => false
  | String _ s' => str_contains s' sub
  end.

(** [key == o] for a [str] key: only an equal [str] is equal to it. *)
Definition str_eq (key : string) (o : pyobj) : bool :=
  match o with
  | PyStr s => String.eqb key s
  | _ => false
  end.

(** [key in items] for a [list] *)
Definition list_contains (items : list pyobj) (key : string) : bool :=
  existsb (str_eq key) items.

(** ** Exceptions *)

#[warnings="-register-all"]
Inductive exn : Type :=
| JSONDecodeError (msg : string) (pos : nat)
| VaultBootstrapError (msg : string) (cause : option exn)
| AttributeError (obj_type : string) (name : string)
| TypeError (operand_type : string)
| RecursionError
| ValueError (msg : string).

Definition is_JSONDecodeError (e : exn) : bool :=
  match e with JSONDecodeError _ _ => true | _ => false end.

Definition is_VaultBootstrapError (e : exn) : bool :=
  match e with VaultBootstrapError _ _ => true | _ => false end.

Inductive outcome (A : Type) : Type :=
| Return (a : A)
| Raise (e : exn).

Arguments Return {A} a.
Arguments Raise {A} e.

(** ** Computations

    A computation runs in a world (whatever lives outside the call:
    module globals, the heap, the file system) and leaves an outcome and
    a world.  A raised exception keeps the world it was raised in. *)

Definition M (World A : Type) : Type := World -> outcome A * World.

Definition ret {World A : Type} (a : A) : M World A :=
  fun w => (Return a, w).

Definition raise {World A : Type} (e : exn) : M World A :=
  fun w => (Raise e, w).

Definition bind {World A B : Type} (m : M World A) (k : A -> M World B)
  : M World B :=
  fun w =>
    match m w with
    | (Return a, w') => k a w'
    | (Raise e, w') => (Raise e, w')
    end.

(** A call of a function that touches nothing outside itself. *)
Definition call {World A : Type} (r : outcome A) : M World A :=
  fun w => (r, w).

(** [try: body / except <cls> as exc: handler exc] *)
Definition try_except {World A : Type} (body : M World A)
  (cls : exn -> bool) (handler : exn -> M World A) : M World A :=
  fun w =>
    match body w with
    | (Return a, w') => (Return a, w')
    | (Raise e, w') => if cls e then handler e w' else (Raise e, w')
    end.

Declare Scope py_scope.
Delimit Scope py_scope with py.
Notation "x <- m ;; k" := (bind m (fun x => k))
  (at level 61, m at next level, right associativity) : py_scope.

(** *** Operations on objects *)

(** [o.get(key, default)]: only a [dict] has the method. *)
Definition py_get (o : pyobj) (key : string) (default : pyobj)
  : outcome pyobj :=
  match o with
  | PyDict d => Return (dict_get d key default)
  | _ => Raise (AttributeError (type_name o) "get")
  end.

(** [key in o]: keys of a [dict], substrings of a [str], elements of a
    [list]; the other objects are no containers. *)
Definition py_in (key : string) (o : pyobj) : outcome bool :=
  match o with
  | PyDict d => Return (dict_contains d key)
  | PyStr s => Return (str_contains s key)
  | PyList items => Return (list_contains items key)
  | _ => Raise (TypeError (type_name o))
  end.

(** [key not in o] *)
Definition py_not_in (key : string) (o : pyobj) : outcome bool :=
  match py_in key o with
  | Return b => Return (negb b)
  | Raise e => Raise e
  end.

(** [not o] *)
Definition py_not (o : pyobj) : bool := negb (truthy o).

(** ** The interpreter

    What [json.loads] reads of the interpreter it runs in: how many
    nested arrays and objects the scanner may still enter before the
    recursion limit is reached (the limit less the frames on the stack
    when the scanner starts), and [sys.get_int_max_str_digits()], [0]
    for no limit. *)

Record interpreter : Set := {
  recursion_headroom : nat;
  int_max_str_digits : nat
}.

(** A fresh interpreter calling a helper from the top of a module: the
    recursion limit is 1000, the digit limit 4300. *)
Definition fresh_interpreter : interpreter :=
  {| recursion_headroom := 994; int_max_str_digits := 4300 |}.

(** [len(s)]: the characters of a [str], one for each byte of its UTF-8
    form that is no continuation byte. *)
Fixpoint len (s : string) : nat :=
  match s with
  | EmptyString => 0
  | String c s' =>
      if (128 <=? nat_of_ascii c)%nat && (nat_of_ascii c <? 192)%nat
      then len s' else S (len s')
  end.

(** [s * n] *)
Fixpoint str_mul (s : string) (n : nat) : string :=
  match n with
  | O => ""
  | S n' => s ++ str_mul s n'
  end.

(** ** [json.loads]

    The helpers below take the decoder as a parameter, and their
    contracts hold for whatever decoder it is.  This module is the one
    they are run on: the decoder of the standard [json] package for a
    [str] document, after [json/decoder.py] and the scanner of
    [_json.c]: the JSON grammar, with the constants [NaN], [Infinity]
    and [-Infinity], duplicate member names resolved as a [dict] does,
    strict strings, the interpreter's recursion limit on nesting and its
    digit limit on integers.  A fault of the document is reported with
    the text of its diagnosis and the offset it points at; neither
    helper looks at them. *)

Module json.

(** The result of scanning: a value and the rest of the document, a
    fault at the undecoded rest of the document, an exception other
    than [JSONDecodeError], or no step left to go on with. *)
Inductive res (A : Type) : Type :=
| Ok (a : A)
| Err (msg : string) (rest : string)
| Raised (e : exn)
| Exhausted.

Arguments Ok {A} a.
Arguments Err {A} msg rest.
Arguments Raised {A} e.
Arguments Exhausted {A}.

Definition quote : ascii := "034"%char.

(** IS_WHITESPACE: space, tab, line feed, carriage return *)
Definition is_whitespace (c : ascii) : bool :=
  match nat_of_ascii c with
  | 32 | 9 | 10 | 13 => true
  | _ => false
  end.

Fixpoint skip_whitespace (s : string) : string :=
  match s with
  | String c s' => if is_whitespace c then skip_whitespace s' else s
  | EmptyString => s
  end.

Definition is_digit (c : ascii) : bool :=
  let n := nat_of_ascii c in (48 <=? n)%nat && (n <=? 57)%nat.

Definition hex_value (c : ascii) : option N :=
  let n := N_of_ascii c in
  if (48 <=? n)%N && (n <=? 57)%N then Some (n - 48)%N
  else if (65 <=? n)%N && (n <=? 70)%N then Some (n - 55)%N
  else if (97 <=? n)%N && (n <=? 102)%N then Some (n - 87)%N
  else None.

(** *** Strings *)

(** The four hexadecimal digits of a [\uXXXX] escape. *)
Definition decode_uXXXX (h1 h2 h3 h4 : ascii) : option N :=
  match hex_value h1, hex_value h2, hex_value h3, hex_value h4 with
  | Some a, Some b, Some c, Some d =>
      Some (((a * 16 + b) * 16 + c) * 16 + d)%N
  | _, _, _, _ => None
  end.

(** [chr(cp)], in UTF-8 (a lone surrogate in three bytes). *)
Definition chr (cp : N) : string :=
  let byte (n : N) := ascii_of_N n in
  let cont (n : N) := byte (128 + n mod 64)%N in
  if (cp <? 128)%N then String (byte cp) ""
  else if (cp <? 2048)%N then
    String (byte (192 + cp / 64)%N) (String (cont cp) "")
  else if (cp <? 65536)%N then
    String (byte (224 + cp / 4096)%N)
      (String (cont (cp / 64)%N) (String (cont cp) ""))
  else
    String (byte (240 + cp / 262144)%N)
      (String (cont (cp / 4096)%N)
         (String (cont (cp / 64)%N) (String (cont cp) ""))).

(** The one-character escapes. *)
Definition backslash (esc : ascii) : option ascii :=
  match nat_of_ascii esc with
  | 34 => Some quote
  | 92 => Some "\"%char
  | 47 => Some "/"%char
  | 98 => Some "008"%char
  | 102 => Some "012"%char
  | 110 => Some "010"%char
  | 114 => Some "013"%char
  | 116 => Some "009"%char
  | _ => None
  end.

Definition is_high_surrogate (u : N) : bool :=
  (55296 <=? u)%N && (u <=? 56319)%N.

Definition is_low_surrogate (u : N) : bool :=
  (56320 <=? u)%N && (u <=? 57343)%N.

Definition push (chunk : string) (r : res (string * string))
  : res (string * string) :=
  match r with
  | Ok (content, rest) => Ok (chunk ++ content, rest)
  | Err msg rest => Err msg rest
  | Raised e => Raised e
  | Exhausted => Exhausted
  end.

(** [scanstring]: [s] follows the opening quotation mark, [begin] is
    the document from that mark on.  A [\uXXXX] escape wants a
    character after its four digits, and a second escape is read as the
    low half of a pair only when a character follows it too. *)
Fixpoint scanstring (begin s : string) : res (string * string) :=
  match s with
  | EmptyString => Err "Unterminated string starting at" begin
  | String c rest =>
      if Ascii.eqb c quote then Ok ("", rest)
      else if Ascii.eqb c "\" then
        match rest with
        | EmptyString => Err "Unterminated string starting at" begin
        | String esc rest1 =>
            if Ascii.eqb esc "u" then
              match rest1 with
              | String h1 (String h2 (String h3 (String h4 rest2))) =>
                  if (len rest1 <? 5)%nat then Err "Invalid \uXXXX escape" rest
                  else
                    match decode_uXXXX h1 h2 h3 h4 with
                    | None => Err "Invalid \uXXXX escape" rest
                    | Some uni =>
                        match rest2 with
                        | String b (String u
                            (String g1 (String g2 (String g3 (String g4 rest3))))) =>
                            if is_high_surrogate uni && (6 <? len rest2)%nat
                               && Ascii.eqb b "\" && Ascii.eqb u "u" then
                              match decode_uXXXX g1 g2 g3 g4 with
                              | None =>
                                  Err "Invalid \uXXXX escape"
                                    (String u
                                       (String g1 (String g2 (String g3 (String g4 rest3)))))
                              | Some uni2 =>
                                  if is_low_surrogate uni2 then
                                    push
                                      (chr (65536 + ((uni - 55296) * 1024
                                                     + (uni2 - 56320)))%N)
                                      (scanstring begin rest3)
                                  else push (chr uni) (scanstring begin rest2)
                              end
                            else push (chr uni) (scanstring begin rest2)
                        | _ => push (chr uni) (scanstring begin rest2)
                        end
                    end
              | _ => Err "Invalid \uXXXX escape" rest
              end
            else
              match backslash esc with
              | Some char => push (String char "") (scanstring begin rest1)
              | None => Err "Invalid \escape" s
              end
        end
      else if (nat_of_ascii c <=? 31)%nat then
        Err "Invalid control character at" s
      else push (String c "") (scanstring begin rest)
  end.

(** *** Numbers *)

(** The longest run of decimal digits [s] starts with, and what follows. *)
Fixpoint digits (s : string) : string * string :=
  match s with
  | String c s' =>
      if is_digit c then let (d, r) := digits s' in (String c d, r)
      else ("", s)
  | EmptyString => ("", s)
  end.

(** The value of a run of decimal digits. *)
Definition int_of_digits (d : string) : Z :=
  fold_left (fun acc c => (10 * acc + Z.of_nat (nat_of_ascii c - 48))%Z)
    (list_ascii_of_string d) 0%Z.

(** [n] in decimal. *)
Definition decimal (n : nat) : string :=
  NilZero.string_of_uint (Nat.to_uint n).

(** Whether a run of digits is beyond the interpreter's limit: the limit
    applies beyond 640 digits, when there is one. *)
Definition exceeds_limit (max_str_digits : nat) (d : string) : bool :=
  (640 <? String.length d)%nat && (0 <? max_str_digits)%nat
  && (max_str_digits <? String.length d)%nat.

(** [int(text)] for an optional minus sign and a run of digits. *)
Definition int_from_string (max_str_digits : nat) (neg : bool) (d : string)
  : outcome pyobj :=
  if exceeds_limit max_str_digits d then
    Raise
      (ValueError
         ("Exceeds the limit (" ++ decimal max_str_digits
          ++ " digits) for integer string conversion: value has "
          ++ decimal (String.length d)
          ++ " digits; use sys.set_int_max_str_digits() to increase the limit"))
  else Return (PyInt (if neg then - int_of_digits d else int_of_digits d)%Z).

(** [float(text)] for the decimal [(-1)^neg * m * 10^e10], [m] written
    with at most [width] digits: the nearest binary64 number, ties to
    even. *)
Definition float_of_decimal (neg : bool) (m : Z) (width : Z) (e10 : Z)
  : spec_float :=
  match m with
  | Zpos p =>
      if (309 <=? e10)%Z then S754_infinity neg
      else if (width + e10 <? -330)%Z then S754_zero neg
      else if (0 <=? e10)%Z then
        binary_normalize 53 1024 (if neg then - (m * 10 ^ e10) else m * 10 ^ e10)%Z
          0 false
      else
        SFdiv 53 1024 (S754_finite neg p 0)
          (S754_finite false (Z.to_pos (10 ^ (- e10))) 0)
  | _ => S754_zero neg
  end.

(** A number: an optional minus sign and an integer part ([0], or a
    nonzero digit and more digits), then an optional fraction (a point
    and digits) and an optional exponent ([e] or [E], an optional sign,
    digits). *)
Definition integer_part (s : string) : option (string * string) :=
  match s with
  | String c s' =>
      if Ascii.eqb c "0" then Some ("0", s')
      else if is_digit c then Some (digits s)
      else None
  | EmptyString => None
  end.

Definition fraction_part (s : string) : option (string * string) :=
  match s with
  | String c s' =>
      if Ascii.eqb c "." then
        match digits s' with
        | (EmptyString, _) => None
        | (d, r) => Some (d, r)
        end
      else None
  | EmptyString => None
  end.

(** An optional minus sign. *)
Definition minus_sign (s : string) : bool * string :=
  match s with
  | String c s' => if Ascii.eqb c "-" then (true, s') else (false, s)
  | EmptyString => (false, s)
  end.

(** The optional sign of an exponent. *)
Definition exponent_sign (s : string) : bool * string :=
  match s with
  | String c s' =>
      if Ascii.eqb c "-" then (true, s')
      else if Ascii.eqb c "+" then (false, s')
      else (false, s)
  | EmptyString => (false, s)
  end.

Definition exponent_part (s : string) : option (Z * string) :=
  match s with
  | String c s' =>
      if Ascii.eqb c "e" || Ascii.eqb c "E" then
        let '(neg, s1) := exponent_sign s' in
        match digits s1 with
        | (EmptyString, _) => None
        | (d, r) =>
            Some (if neg then (- int_of_digits d)%Z else int_of_digits d, r)
        end
      else None
  | EmptyString => None
  end.

(** The number [s] starts with, converted: an [int] without fraction
    and exponent, a [float] with either. *)
Definition match_number (max_str_digits : nat) (s : string)
  : option (outcome pyobj * string) :=
  let '(neg, s0) := minus_sign s in
  match integer_part s0 with
  | None => None
  | Some (integer, s1) =>
      let '(frac, s2) :=
        match fraction_part s1 with
        | Some (d, r) => (Some d, r)
        | None => (None, s1)
        end in
      let '(exp, s3) :=
        match exponent_part s2 with
        | Some (e, r) => (Some e, r)
        | None => (None, s2)
        end in
      match frac, exp with
      | None, None => Some (int_from_string max_str_digits neg integer, s3)
      | _, _ =>
          let f := match frac with Some d => d | None => "" end in
          let e := match exp with Some e => e | None => 0%Z end in
          let mantissa := integer ++ f in
          Some (Return
                  (PyFloat
                     (float_of_decimal neg (int_of_digits mantissa)
                        (Z.of_nat (String.length mantissa))
                        (e - Z.of_nat (String.length f))%Z)), s3)
      end
  end.

(** *** Values *)

(** [s] without its prefix [p], when it starts with it. *)
Fixpoint drop_prefix (p s : string) : option string :=
  match p, s with
  | EmptyString, _ => Some s
  | String a p', String b s' =>
      if Ascii.eqb a b then drop_prefix p' s' else None
  | String _ _, EmptyString => None
  end.

Definition constant (s : string) : option (pyobj * string) :=
  match drop_prefix "null" s with
  | Some r => Some (PyNone, r)
  | None =>
  match drop_prefix "true" s with
  | Some r => Some (PyBool true, r)
  | None =>
  match drop_prefix "false" s with
  | Some r => Some (PyBool false, r)
  | None => None
  end end end.

Definition float_constant (s : string) : option (pyobj * string) :=
  match drop_prefix "NaN" s with
  | Some r => Some (PyFloat S754_nan, r)
  | None =>
  match drop_prefix "Infinity" s with
  | Some r => Some (PyFloat (S754_infinity false), r)
  | None =>
  match drop_prefix "-Infinity" s with
  | Some r => Some (PyFloat (S754_infinity true), r)
  | None => None
  end end end.

(** The scanner: one value, the elements of an array, the members of an
    object.  Entering an array or an object takes one from [headroom],
    and with none left the scanner raises [RecursionError]; [steps]
    bounds the calls of the three functions. *)
Fixpoint scan_once (steps : nat) (headroom max_str_digits : nat) (s : string)
  : res (pyobj * string) :=
  match steps with
  | O => Exhausted
  | S steps' =>
      match s with
      | EmptyString => Err "Expecting value" s
      | String nextchar rest =>
          if Ascii.eqb nextchar quote then
            match scanstring s rest with
            | Ok (text, r) => Ok (PyStr text, r)
            | Err msg r => Err msg r
            | Raised e => Raised e
            | Exhausted => Exhausted
            end
          else if Ascii.eqb nextchar "{" then
            match headroom with
            | O => Raised RecursionError
            | S headroom' =>
                let s1 := skip_whitespace rest in
                match s1 with
                | String c r =>
                    if Ascii.eqb c "}" then Ok (PyDict [], r)
                    else if Ascii.eqb c quote then
                      match object_pairs steps' headroom' max_str_digits s1 with
                      | Ok (pairs, r') => Ok (PyDict (dict_of_pairs pairs), r')
                      | Err msg r' => Err msg r'
                      | Raised e => Raised e
                      | Exhausted => Exhausted
                      end
                    else
                      Err "Expecting property name enclosed in double quotes" s1
                | EmptyString =>
                    Err "Expecting property name enclosed in double quotes" s1
                end
            end
          else if Ascii.eqb nextchar "[" then
            match headroom with
            | O => Raised RecursionError
            | S headroom' =>
                let s1 := skip_whitespace rest in
                match s1 with
                | String c r =>
                    if Ascii.eqb c "]" then Ok (PyList [], r)
                    else
                      match array_values steps' headroom' max_str_digits s1 with
                      | Ok (values, r') => Ok (PyList values, r')
                      | Err msg r' => Err msg r'
                      | Raised e => Raised e
                      | Exhausted => Exhausted
                      end
                | EmptyString => Err "Expecting value" s1
                end
            end
          else
            match constant s with
            | Some found => Ok found
            | None =>
            match match_number max_str_digits s with
            | Some (Return value, r) => Ok (value, r)
            | Some (Raise e, _) => Raised e
            | None =>
            match float_constant s with
            | Some found => Ok found
            | None => Err "Expecting value" s
            end end end
      end
  end

with array_values (steps : nat) (headroom max_str_digits : nat) (s : string)
  : res (list pyobj * string) :=
  match steps with
  | O => Exhausted
  | S steps' =>
      match scan_once steps' headroom max_str_digits s with
      | Ok (value, s1) =>
          let s2 := skip_whitespace s1 in
          match s2 with
          | String nextchar r =>
              if Ascii.eqb nextchar "]" then Ok ([value], r)
              else if Ascii.eqb nextchar "," then
                match array_values steps' headroom max_str_digits
                        (skip_whitespace r) with
                | Ok (values, r') => Ok (value :: values, r')
                | Err msg r' => Err msg r'
                | Raised e => Raised e
                | Exhausted => Exhausted
                end
              else Err "Expecting ',' delimiter" s2
          | EmptyString => Err "Expecting ',' delimiter" s2
          end
      | Err msg r => Err msg r
      | Raised e => Raised e
      | Exhausted => Exhausted
      end
  end

with object_pairs (steps : nat) (headroom max_str_digits : nat) (s : string)
  : res (list (string * pyobj) * string) :=
  match steps with
  | O => Exhausted
  | S steps' =>
      match s with
      | String _ after_quote =>
          match scanstring s after_quote with
          | Ok (key, s1) =>
              let s2 := skip_whitespace s1 in
              match s2 with
              | String colon s3 =>
                  if Ascii.eqb colon ":" then
                    match scan_once steps' headroom max_str_digits
                            (skip_whitespace s3) with
                    | Ok (value, s4) =>
                        let s5 := skip_whitespace s4 in
                        match s5 with
                        | String nextchar r =>
                            if Ascii.eqb nextchar "}" then
                              Ok ([(key, value)], r)
                            else if Ascii.eqb nextchar "," then
                              let s6 := skip_whitespace r in
                              match s6 with
                              | String c _ =>
                                  if Ascii.eqb c quote then
                                    match object_pairs steps' headroom
                                            max_str_digits s6 with
                                    | Ok (pairs, r') =>
                                        Ok ((key, value) :: pairs, r')
                                    | Err msg r' => Err msg r'
                                    | Raised e => Raised e
                                    | Exhausted => Exhausted
                                    end
                                  else
                                    Err "Expecting property name enclosed in double quotes" s6
                              | EmptyString =>
                                  Err "Expecting property name enclosed in double quotes" s6
                              end
                            else Err "Expecting ',' delimiter" s5
                        | EmptyString => Err "Expecting ',' delimiter" s5
                        end
                    | Err msg r => Err msg r
                    | Raised e => Raised e
                    | Exhausted => Exhausted
                    end
                  else Err "Expecting ':' delimiter" s2
              | EmptyString => Err "Expecting ':' delimiter" s2
              end
          | Err msg r => Err msg r
          | Raised e => Raised e
          | Exhausted => Exhausted
          end
      | EmptyString =>
          Err "Expecting property name enclosed in double quotes" s
      end
  end.

(** The byte order mark U+FEFF. *)
Definition BOM : string :=
  String "239"%char (String "187"%char (String "191"%char "")).

(** Steps enough for any document [s]. *)
Definition steps_for (s : string) : nat := 2 * String.length s + 2.

(** [json.loads(s)] in the interpreter [st]. *)
Definition loads_in (st : interpreter) (s : string) : outcome pyobj :=
  let pos (rest : string) := (len s - len rest)%nat in
  if startswith s BOM then
    Raise (JSONDecodeError "Unexpected UTF-8 BOM (decode using utf-8-sig)" 0)
  else
    match scan_once (steps_for s) (recursion_headroom st)
            (int_max_str_digits st) (skip_whitespace s) with
    | Ok (obj, rest) =>
        let rest' := skip_whitespace rest in
        match rest' with
        | EmptyString => Return obj
        | String _ _ => Raise (JSONDecodeError "Extra data" (pos rest'))
        end
    | Err msg rest => Raise (JSONDecodeError msg (pos rest))
    | Raised e => Raise e
    | Exhausted => Raise RecursionError
    end.

(** [json.loads(s)] in a fresh interpreter. *)
Definition loads (s : string) : outcome pyobj := loads_in fresh_interpreter s.

(** What [json.loads(s)] gives when no limit of the interpreter is in
    its way: no document nests deeper than it is long. *)
Definition parse (s : string) : outcome pyobj :=
  loads_in {| recursion_headroom := String.length s; int_max_str_digits := 0 |} s.

End json.


(** A document written with ['] where it has a quotation mark. *)
Definition doc (s : string) : string :=
  string_of_list_ascii
    (map (fun c => if Ascii.eqb c "'" then json.quote else c)
       (list_ascii_of_string s)).

(** A world to run the helpers in: the process environment. *)
Definition environ : list (string * string) :=
  [("VAULT_ADDR", "https://vault.example:8200")].

(** A computation is pure when its outcome is the same in every world
    and it hands the world back as it found it. *)
Definition pure {World A : Type} (m : M World A) : Prop :=
  exists r : outcome A, forall w : World, m w = (r, w).

(** A run that began in the world [w] ended in one of exactly two ways:
    with a returned value or with a raised exception, the world as it
    was. *)
Definition ends_in_one_of_two_ways {World A : Type} (w : World)
  (run : outcome A * World) : Prop :=
  ((exists v, run = (Return v, w)) \/ (exists e, run = (Raise e, w))) /\
  ~ ((exists v w', run = (Return v, w')) /\
     (exists e w', run = (Raise e, w'))).

(** ** Exception classes

    [class VaultBootstrapError(RuntimeError)], among the built-in
    classes of the other exceptions. *)

Module cls.

Inductive t : Set :=
| BaseException
| Exception
| ValueError
| RuntimeError
| AttributeError
| TypeError
| RecursionError
| JSONDecodeError
| VaultBootstrapError.

(** The class a class is derived from. *)
Definition base (c : t) : option t :=
  match c with
  | BaseException => None
  | Exception => Some BaseException
  | ValueError | RuntimeError | AttributeError | TypeError => Some Exception
  | RecursionError => Some RuntimeError
  | JSONDecodeError => Some ValueError
  | VaultBootstrapError => Some RuntimeError
  end.

Definition eqb (c d : t) : bool :=
  match c, d with
  | BaseException, BaseException
  | Exception, Exception
  | ValueError, ValueError
  | RuntimeError, RuntimeError
  | AttributeError, AttributeError
  | TypeError, TypeError
  | RecursionError, RecursionError
  | JSONDecodeError, JSONDecodeError
  | VaultBootstrapError, VaultBootstrapError => true
  | _, _ => false
  end.

(** [c.__mro__], followed for at most [n] bases. *)
Fixpoint mro_within (n : nat) (c : t) : list t :=
  c ::
  match n, base c with
  | S n', Some b => mro_within n' b
  | _, _ => []
  end.

(** No class here is more than three bases below [BaseException]. *)
Definition mro (c : t) : list t := mro_within 3 c.

End cls.

(** [type(e)] *)
Definition class_of (e : exn) : cls.t :=
  match e with
  | JSONDecodeError _ _ => cls.JSONDecodeError
  | VaultBootstrapError _ _ => cls.VaultBootstrapError
  | AttributeError _ _ => cls.AttributeError
  | TypeError _ => cls.TypeError
  | RecursionError => cls.RecursionError
  | ValueError _ => cls.ValueError
  end.

(** [isinstance(e, c)], which is what [except c] tests. *)
Definition isinstance (e : exn) (c : cls.t) : bool :=
  existsb (cls.eqb c) (cls.mro (class_of e)).

(** ** Responses

    A character a JSON string holds as it stands: no quotation mark, no
    backslash, no control character. *)
Definition plain (c : ascii) : bool :=
  negb (Ascii.eqb c json.quote) && negb (Ascii.eqb c "\")
  && negb (nat_of_ascii c <? 32)%nat.

Definition plain_text (s : string) : bool :=
  forallb plain (list_ascii_of_string s).

(** The body of a response that carries [secret] as its secret-id. *)
Definition secret_id_response (secret : string) : string :=
  doc "{'data': {'secret_id': '" ++ secret ++ doc "'}}".

(** ** Containers and limits *)

(** The objects [in] takes on its right. *)
Definition is_container (o : pyobj) : bool :=
  match o with
  | PyDict _ | PyStr _ | PyList _ => true
  | _ => false
  end.

(** What a scanner raises, other than the faults of the document, is the
    [RecursionError] of the recursion limit or the [ValueError] of the
    digit limit. *)
Definition limit_error (e : exn) : Prop :=
  e = RecursionError \/ exists msg, e = ValueError msg.

(** A limit [m2] is at least as loose as [m1]: no limit at all, or a
    limit no smaller. *)
Definition looser_digits (m1 m2 : nat) : Prop :=
  m2 = 0 \/ (m1 <> 0 /\ m1 <= m2).

(** A scan that came to a value or to a fault of the document. *)
Definition settled {A : Type} (r : json.res A) : Prop :=
  match r with
  | json.Ok _ | json.Err _ _ => True
  | json.Raised _ | json.Exhausted => False
  end.

(** [s] is a JSON document, as [json] reads the grammar. *)
Definition valid_json (s : string) : Prop :=
  exists obj, json.parse s = Return obj.

(** Decoding [s] in the interpreter [st] runs into none of its limits:
    it returns, or it raises the [JSONDecodeError] of a fault in [s]. *)
Definition within_limits (st : interpreter) (s : string) : Prop :=
  forall e, json.loads_in st s = Raise e -> is_JSONDecodeError e = true.

(** A helper called in the interpreter [st]: [json.loads] decodes as
    [st] limits it, and [st] is the world of the call. *)
Definition invoke
  (helper : (string -> outcome pyobj) -> string -> M interpreter pyobj)
  (payload : string) : M interpreter pyobj :=
  fun st => helper (json.loads_in st) payload st.

(** The ways out of a helper whose two messages are [decode_msg] and
    [missing_msg]: a value, one of its two [VaultBootstrapError]s, the
    [AttributeError] of a missing [get], the [TypeError] of a membership
    test, and the two errors of the interpreter's limits. *)
Inductive helper_exit (decode_msg missing_msg : string)
  : outcome pyobj -> Prop :=
| exit_value (v : pyobj) :
    helper_exit decode_msg missing_msg (Return v)
| exit_decode (msg : string) (pos : nat) :
    helper_exit decode_msg missing_msg
      (Raise (VaultBootstrapError decode_msg (Some (JSONDecodeError msg pos))))
| exit_missing :
    helper_exit decode_msg missing_msg
      (Raise (VaultBootstrapError missing_msg None))
| exit_attribute (obj_type : string) :
    helper_exit decode_msg missing_msg (Raise (AttributeError obj_type "get"))
| exit_type (operand_type : string) :
    helper_exit decode_msg missing_msg (Raise (TypeError operand_type))
| exit_recursion :
    helper_exit decode_msg missing_msg (Raise RecursionError)
| exit_digits (msg : string) :
    helper_exit decode_msg missing_msg (Raise (ValueError msg)).

(** ** The helpers *)

Section VaultCommands.

Context {World : Type}.

(** [json.loads], on a [str]. *)
Variable json_loads : string -> outcome pyobj.

Local Open Scope py_scope.

Definition _ensure_approle_auth_enabled (payload : string)
  : M World pyobj :=
  data <- try_except (call (json_loads payload)) is_JSONDecodeError
            (fun exc =>
               let msg :=
                 "Failed to decode Vault response whilst verifying AppRole auth" in
               raise (VaultBootstrapError msg (Some exc))) ;;
  auth_methods <- call (py_get data "data" (PyDict [])) ;;
  absent <- call (py_not_in "approle" auth_methods) ;;
  if (absent : bool) then
    let msg := "AppRole authentication is not enabled for the target Vault" in
    raise (VaultBootstrapError msg None)
  else
    ret auth_methods.

Definition _generate_secret_id (payload : string) : M World pyobj :=
  data <- try_except (call (json_loads payload)) is_JSONDecodeError
            (fun exc =>
               let msg :=
                 "Failed to decode Vault response whilst generating a secret-id" in
               raise (VaultBootstrapError msg (Some exc))) ;;
  inner <- call (py_get data "data" (PyDict [])) ;;
  secret_id <- call (py_get inner "secret_id" PyNone) ;;
  if py_not secret_id then
    let msg := "Vault response missing secret_id field" in
    raise (VaultBootstrapError msg None)
  else
    ret secret_id.

(** ** Containers *)

Lemma dict_contains_keys {V : Type} (d : list (string * V)) (key : string) :
  dict_contains d key = true <-> In key (dict_keys d).
Proof.
  unfold dict_contains.
  induction d as [|[k v] d IH]; simpl.
  - split; [discriminate | tauto].
  - destruct (String.eqb_spec key k) as [->|Hne].
    + split; auto.
    + rewrite IH. split; [tauto | intros [Hk|Hin]; [congruence | exact Hin]].
Qed.

Lemma startswith_prefix (s p : string) :
  startswith s p = true <-> exists b, s = p ++ b.
Proof.
  revert s. induction p as [|a p IH]; intros s; simpl.
  - split; [intros _; now exists s | reflexivity].
  - destruct s as [|c s].
    + split; [discriminate | intros [b Hb]; discriminate].
    + rewrite andb_true_iff, IH. split.
      * intros [Hac [b ->]]. apply Ascii.eqb_eq in Hac. subst c. eauto.
      * intros [b Hb]. injection Hb as -> ->.
        split; [apply Ascii.eqb_refl | eauto].
Qed.

Lemma str_contains_substring (s sub : string) :
  str_contains s sub = true <-> exists a b, s = a ++ sub ++ b.
Proof.
  induction s as [|c s IH].
  - simpl. rewrite orb_false_r, startswith_prefix. split.
    + intros [b Hb]. exists "", b. exact Hb.
    + intros [a [b Hab]]. destruct a as [|x a]; [eauto | discriminate].
  - cbn [str_contains]. rewrite orb_true_iff, IH, startswith_prefix. split.
    + intros [[b Hb] | [a [b Hab]]].
      * exists "", b. exact Hb.
      * exists (String c a), b. simpl. now rewrite Hab.
    + intros [a [b Hab]]. destruct a as [|x a].
      * left. eauto.
      * right. simpl in Hab. injection Hab as _ Hab. eauto.
Qed.

Lemma list_contains_element (items : list pyobj) (key : string) :
  list_contains items key = true <-> In (PyStr key) items.
Proof.
  unfold list_contains. rewrite existsb_exists. split.
  - intros [o [Hin Heq]]. destruct o; simpl in Heq; try discriminate.
    apply String.eqb_eq in Heq. now subst.
  - intros Hin. exists (PyStr key). split; [exact Hin | apply String.eqb_refl].
Qed.

(** ** Purity of the building blocks *)

Lemma pure_ret {A : Type} (a : A) : pure (World := World) (ret a).
Proof. exists (Return a). reflexivity. Qed.

Lemma pure_raise {A : Type} (e : exn) : pure (World := World) (A := A) (raise e).
Proof. exists (Raise e). reflexivity. Qed.

Lemma pure_call {A : Type} (r : outcome A) : pure (World := World) (call r).
Proof. exists r. reflexivity. Qed.

Lemma pure_bind {A B : Type} (m : M World A) (k : A -> M World B) :
  pure m -> (forall a, pure (k a)) -> pure (bind m k).
Proof.
  intros [r Hm] Hk. destruct r as [a|e].
  - destruct (Hk a) as [r' Hr']. exists r'. intros w.
    unfold bind. now rewrite Hm.
  - exists (Raise e). intros w. unfold bind. now rewrite Hm.
Qed.

Lemma pure_try_except {A : Type} (body : M World A) (cls : exn -> bool)
  (handler : exn -> M World A) :
  pure body -> (forall e, pure (handler e)) ->
  pure (try_except body cls handler).
Proof.
  intros [r Hb] Hh. destruct r as [a|e].
  - exists (Return a). intros w. unfold try_except. now rewrite Hb.
  - destruct (cls e) eqn:Hcls.
    + destruct (Hh e) as [r' Hr']. exists r'. intros w.
      unfold try_except. now rewrite Hb, Hcls.
    + exists (Raise e). intros w. unfold try_except. now rewrite Hb, Hcls.
Qed.

Lemma pure_if {A : Type} (b : bool) (m1 m2 : M World A) :
  pure m1 -> pure m2 -> pure (if b then m1 else m2).
Proof. now destruct b. Qed.

Lemma _ensure_approle_auth_enabled_pure (payload : string) :
  pure (_ensure_approle_auth_enabled payload).
Proof.
  unfold _ensure_approle_auth_enabled.
  repeat first
    [ apply pure_bind | apply pure_try_except | apply pure_if
    | apply pure_call | apply pure_raise | apply pure_ret | intro ].
Qed.

Lemma _generate_secret_id_pure (payload : string) :
  pure (_generate_secret_id payload).
Proof.
  unfold _generate_secret_id.
  repeat first
    [ apply pure_bind | apply pure_try_except | apply pure_if
    | apply pure_call | apply pure_raise | apply pure_ret | intro ].
Qed.

(** Running a helper: its combinators unfolded. *)
Ltac run :=
  unfold _ensure_approle_auth_enabled, _generate_secret_id,
    bind, try_except, call, ret, raise.

(** ** Contracts *)

(** C1. A payload that decodes to a JSON object whose ["data"] member
    is a mapping with the key ["approle"]: the Verifier succeeds and
    returns that mapping, unchanged. *)
Theorem verifier_returns_data_mapping
  (payload : string) (w : World)
  (document auth_methods : list (string * pyobj)) :
  json_loads payload = Return (PyDict document) ->
  dict_getitem document "data" = Some (PyDict auth_methods) ->
  In "approle" (dict_keys auth_methods) ->
  _ensure_approle_auth_enabled payload w = (Return (PyDict auth_methods), w).
Proof.
  intros Hloads Hdata Hkey. run.
  rewrite Hloads. cbn [py_get]. unfold dict_get. rewrite Hdata.
  unfold py_not_in. cbn [py_in].
  apply dict_contains_keys in Hkey. now rewrite Hkey.
Qed.

(** C2. A payload that decodes to a JSON object in which
    [data.secret_id] is a non-empty string: the Extractor succeeds and
    returns exactly that string. *)
Theorem extractor_returns_secret_id_string
  (payload : string) (w : World)
  (document inner : list (string * pyobj)) (secret : string) :
  json_loads payload = Return (PyDict document) ->
  dict_getitem document "data" = Some (PyDict inner) ->
  dict_getitem inner "secret_id" = Some (PyStr secret) ->
  secret <> "" ->
  _generate_secret_id payload w = (Return (PyStr secret), w).
Proof.
  intros Hloads Hdata Hsecret Hne. run.
  rewrite Hloads. cbn [py_get]. unfold dict_get. rewrite Hdata.
  cbn [py_get]. unfold dict_get. rewrite Hsecret.
  destruct secret; [congruence | reflexivity].
Qed.

(** C3. A payload that decodes to a JSON object whose ["data"]
    mapping (an empty mapping when the member is absent) lacks the key
    ["approle"]: the Verifier fails with a [VaultBootstrapError] whose
    message is "AppRole authentication is not enabled for the target
    Vault". *)
Theorem verifier_rejects_missing_approle
  (payload : string) (w : World)
  (document auth_methods : list (string * pyobj)) :
  json_loads payload = Return (PyDict document) ->
  dict_get document "data" (PyDict []) = PyDict auth_methods ->
  ~ In "approle" (dict_keys auth_methods) ->
  _ensure_approle_auth_enabled payload w =
    (Raise
       (VaultBootstrapError
          "AppRole authentication is not enabled for the target Vault"
          None), w).
Proof.
  intros Hloads Hdata Hkey. run.
  rewrite Hloads. cbn [py_get]. rewrite Hdata.
  unfold py_not_in. cbn [py_in].
  destruct (dict_contains auth_methods "approle") eqn:Hin.
  - apply dict_contains_keys in Hin. contradiction.
  - reflexivity.
Qed.


(** A [JSONDecodeError] of the decoder is wrapped: the Verifier fails
    with a [VaultBootstrapError] whose message is "Failed to decode Vault
    response whilst verifying AppRole auth", the Extractor with one
    whose message is "Failed to decode Vault response whilst generating
    a secret-id"; each is raised from the decoder's error. *)
Lemma decode_error_is_wrapped
  (payload : string) (w : World) (msg : string) (pos : nat) :
  json_loads payload = Raise (JSONDecodeError msg pos) ->
  _ensure_approle_auth_enabled payload w =
    (Raise
       (VaultBootstrapError
          "Failed to decode Vault response whilst verifying AppRole auth"
          (Some (JSONDecodeError msg pos))), w)
  /\
  _generate_secret_id payload w =
    (Raise
       (VaultBootstrapError
          "Failed to decode Vault response whilst generating a secret-id"
          (Some (JSONDecodeError msg pos))), w).
Proof.
  intros Hloads. run. now rewrite Hloads.
Qed.

(** C6, amended. When [json.loads] raises [JSONDecodeError], or returns
    a JSON object whose ["data"] member is absent or a mapping (or, for
    the Verifier, a string or an array), whenever the Verifier or the
    Extractor fails, the failure is a [VaultBootstrapError]. *)
Theorem failures_are_bootstrap_errors
  (payload : string) (w w' : World) (e : exn) :
  (((exists msg pos, json_loads payload = Raise (JSONDecodeError msg pos)) \/
    (exists document,
       json_loads payload = Return (PyDict document) /\
       is_container (dict_get document "data" (PyDict [])) = true)) ->
   _ensure_approle_auth_enabled payload w = (Raise e, w') ->
   is_VaultBootstrapError e = true)
  /\
  (((exists msg pos, json_loads payload = Raise (JSONDecodeError msg pos)) \/
    (exists document inner,
       json_loads payload = Return (PyDict document) /\
       dict_get document "data" (PyDict []) = PyDict inner)) ->
   _generate_secret_id payload w = (Raise e, w') ->
   is_VaultBootstrapError e = true).
Proof.
  split.
  - intros [[msg [pos Hloads]] | [document [Hloads Hdata]]];
      run; rewrite Hloads.
    + cbn [is_JSONDecodeError]. intros H. injection H as <- _. reflexivity.
    + cbn [py_get]. unfold py_not_in.
      destruct (dict_get document "data" (PyDict [])); try discriminate;
        cbn [py_in];
        match goal with
        | |- context [negb ?b] => destruct b
        end; cbn [negb]; try discriminate;
        intros H; injection H as <- _; reflexivity.
  - intros [[msg [pos Hloads]] | [document [inner [Hloads Hdata]]]];
      run; rewrite Hloads.
    + cbn [is_JSONDecodeError]. intros H. injection H as <- _. reflexivity.
    + cbn [py_get]. rewrite Hdata. cbn [py_get].
      destruct (py_not (dict_get inner "secret_id" PyNone));
        [ | discriminate].
      intros H. injection H as <- _. reflexivity.
Qed.

(** C7, amended. A payload that decodes to a JSON object in which
    [data.secret_id] is present and truthy, of whatever JSON type: the
    Extractor succeeds and returns the extracted value itself, not
    converted. *)
Theorem extractor_returns_truthy_value
  (payload : string) (w : World)
  (document inner : list (string * pyobj)) (v : pyobj) :
  json_loads payload = Return (PyDict document) ->
  dict_getitem document "data" = Some (PyDict inner) ->
  dict_getitem inner "secret_id" = Some v ->
  truthy v = true ->
  _generate_secret_id payload w = (Return v, w).
Proof.
  intros Hloads Hdata Hsecret Htruthy. run.
  rewrite Hloads. cbn [py_get]. unfold dict_get. rewrite Hdata.
  cbn [py_get]. unfold dict_get, py_not.
  now rewrite Hsecret, Htruthy.
Qed.

(** C8. When the ["data"] member of the decoded JSON object is not a
    mapping, the Verifier tests membership in that value, as Python
    does and not by a key lookup.  For a string it returns the value
    when ["approle"] is a substring and fails with the "not enabled"
    error when it is not; for an array it returns the value when
    ["approle"] is an element and fails with the same error when it is
    not; for any other value (a number, [true], [false], [null]) it
    fails with the [TypeError] of a membership test on that type.  So
    whenever it succeeds it returns that value, which is no mapping. *)
Theorem verifier_membership_on_non_mapping
  (payload : string) (w : World)
  (document : list (string * pyobj)) (v : pyobj) :
  json_loads payload = Return (PyDict document) ->
  dict_getitem document "data" = Some v ->
  is_dict v = false ->
  (forall s, v = PyStr s ->
     ((exists a b, s = a ++ "approle" ++ b) ->
      _ensure_approle_auth_enabled payload w = (Return v, w)) /\
     (~ (exists a b, s = a ++ "approle" ++ b) ->
      _ensure_approle_auth_enabled payload w =
        (Raise
           (VaultBootstrapError
              "AppRole authentication is not enabled for the target Vault"
              None), w))) /\
  (forall items, v = PyList items ->
     (In (PyStr "approle") items ->
      _ensure_approle_auth_enabled payload w = (Return v, w)) /\
     (~ In (PyStr "approle") items ->
      _ensure_approle_auth_enabled payload w =
        (Raise
           (VaultBootstrapError
              "AppRole authentication is not enabled for the target Vault"
              None), w))) /\
  ((forall s, v <> PyStr s) -> (forall items, v <> PyList items) ->
   _ensure_approle_auth_enabled payload w =
     (Raise (TypeError (type_name v)), w)) /\
  (forall r w',
     _ensure_approle_auth_enabled payload w = (Return r, w') ->
     r = v /\ is_dict r = false).
Proof.
  intros Hloads Hdata Hnondict. run.
  rewrite Hloads. cbn [py_get]. unfold dict_get. rewrite Hdata.
  unfold py_not_in. split; [ | split; [ | split]].
  - intros s ->. cbn [py_in].
    destruct (str_contains s "approle") eqn:Hc; split.
    + reflexivity.
    + intros Hsub. apply str_contains_substring in Hc. contradiction.
    + intros Hsub. apply str_contains_substring in Hsub. congruence.
    + reflexivity.
  - intros items ->. cbn [py_in].
    destruct (list_contains items "approle") eqn:Hc; split.
    + reflexivity.
    + intros Hin. apply list_contains_element in Hc. contradiction.
    + intros Hin. apply list_contains_element in Hin. congruence.
    + reflexivity.
  - intros Hstr Hlist.
    destruct v; try discriminate; try reflexivity.
    + now contradiction (Hstr s).
    + now contradiction (Hlist items).
  - intros r w'.
    destruct (py_in "approle" v) as [[|]|]; cbn [negb];
      try discriminate.
    intros H. now injection H as <- _.
Qed.

End VaultCommands.

(** ** The decoder: steps, limits *)

Lemma skip_whitespace_length (s : string) :
  String.length (json.skip_whitespace s) <= String.length s.
Proof.
  induction s as [|c s IH]; simpl; [lia | ].
  destruct (json.is_whitespace c); simpl; lia.
Qed.

Lemma push_ok (chunk : string) (r : json.res (string * string))
  (content rest : string) :
  json.push chunk r = json.Ok (content, rest) ->
  exists content', r = json.Ok (content', rest).
Proof.
  destruct r as [[content' rest'] | | |]; simpl; try discriminate.
  intros H. injection H as _ <-. eauto.
Qed.

Lemma push_stops (chunk : string) (r : json.res (string * string)) :
  (json.push chunk r = json.Exhausted -> r = json.Exhausted) /\
  (forall e, json.push chunk r = json.Raised e -> r = json.Raised e).
Proof. destruct r as [[? ?] | | |]; simpl; split; congruence. Qed.

(** A string is scanned within the document, whatever the limits: it
    comes to a value that leaves less of the document, or to a fault. *)
Lemma scanstring_consumes (n : nat) :
  forall begin s, String.length s <= n ->
    json.scanstring begin s <> json.Exhausted /\
    (forall e, json.scanstring begin s <> json.Raised e) /\
    forall content rest,
      json.scanstring begin s = json.Ok (content, rest) ->
      String.length rest < String.length s.
Proof.
  induction n as [|n IH]; intros begin s Hlen.
  - destruct s; cbn [String.length] in Hlen; [ | lia].
    repeat split; intros; discriminate.
  - assert (Hrec : forall chunk t, String.length t <= n ->
              json.push chunk (json.scanstring begin t) <> json.Exhausted /\
              (forall e,
                 json.push chunk (json.scanstring begin t) <> json.Raised e) /\
              forall content rest,
                json.push chunk (json.scanstring begin t) =
                  json.Ok (content, rest) ->
                String.length rest < String.length t).
    { intros chunk t Ht. destruct (IH begin t Ht) as (Hd & Hr & Hc).
      repeat split.
      - intros H. apply push_stops in H. contradiction.
      - intros e H. apply push_stops in H. exact (Hr e H).
      - intros content rest H. apply push_ok in H as [c' H]. eauto. }
    destruct s as [|c rest0]; [repeat split; intros; discriminate | ].
    cbn [json.scanstring].
    repeat match goal with
    | |- context [if ?b then _ else _] => destruct b
    | |- context [match ?x with _ => _ end] =>
        destruct x; cbn [String.length] in Hlen
    end;
    try (split; [discriminate | split; [intros e; discriminate | ]];
         intros ? ? Hok; try discriminate;
         injection Hok as _ <-; cbn [String.length]; lia);
    match goal with
    | |- context [json.push ?chunk (json.scanstring begin ?t)] =>
        destruct (Hrec chunk t ltac:(cbn [String.length] in *; lia))
          as (Hd & Hr & Hc);
        split; [exact Hd | split; [exact Hr | ]];
        intros ? ? Hok; apply Hc in Hok;
        cbn [String.length] in *; lia
    end.
Qed.

Lemma digits_length (s d r : string) :
  json.digits s = (d, r) -> String.length r <= String.length s.
Proof.
  revert d r. induction s as [|c s IH]; intros d r; cbn [json.digits].
  - intros H. injection H as _ <-. lia.
  - destruct (json.is_digit c).
    + destruct (json.digits s) as [d' r'] eqn:Hd.
      intros H. injection H as _ <-.
      specialize (IH d' r' eq_refl). cbn [String.length]. lia.
    + intros H. injection H as _ <-. lia.
Qed.

Lemma integer_part_consumes (s d r : string) :
  json.integer_part s = Some (d, r) -> String.length r < String.length s.
Proof.
  unfold json.integer_part. destruct s as [|c s]; [discriminate | ].
  destruct (Ascii.eqb c "0").
  - intros H. injection H as _ <-. cbn [String.length]. lia.
  - destruct (json.is_digit c) eqn:Hc; [ | discriminate].
    cbn [json.digits]. rewrite Hc.
    destruct (json.digits s) as [d' r'] eqn:Hd.
    intros H. injection H as _ <-.
    apply digits_length in Hd. cbn [String.length]. lia.
Qed.

Lemma fraction_part_length (s d r : string) :
  json.fraction_part s = Some (d, r) -> String.length r <= String.length s.
Proof.
  unfold json.fraction_part. destruct s as [|c s]; [discriminate | ].
  destruct (Ascii.eqb c "."); [ | discriminate].
  destruct (json.digits s) as [d' r'] eqn:Hd.
  apply digits_length in Hd.
  destruct d'; [discriminate | ].
  intros H. injection H as _ <-. cbn [String.length]. lia.
Qed.

Lemma minus_sign_length (s : string) (neg : bool) (r : string) :
  json.minus_sign s = (neg, r) -> String.length r <= String.length s.
Proof.
  unfold json.minus_sign. destruct s as [|c s].
  - intros H. injection H as _ <-. lia.
  - destruct (Ascii.eqb c "-"); intros H; injection H as _ <-;
      cbn [String.length]; lia.
Qed.

Lemma exponent_sign_length (s : string) (neg : bool) (r : string) :
  json.exponent_sign s = (neg, r) -> String.length r <= String.length s.
Proof.
  unfold json.exponent_sign. destruct s as [|c s].
  - intros H. injection H as _ <-. lia.
  - destruct (Ascii.eqb c "-"); [ | destruct (Ascii.eqb c "+")];
      intros H; injection H as _ <-; cbn [String.length]; lia.
Qed.

Lemma exponent_part_length (s : string) (e : Z) (r : string) :
  json.exponent_part s = Some (e, r) -> String.length r <= String.length s.
Proof.
  unfold json.exponent_part. destruct s as [|c s]; [discriminate | ].
  destruct (Ascii.eqb c "e" || Ascii.eqb c "E"); [ | discriminate].
  destruct (json.exponent_sign s) as [neg t] eqn:Hs.
  apply exponent_sign_length in Hs.
  destruct (json.digits t) as [d' r'] eqn:Hd.
  apply digits_length in Hd.
  destruct d'; [discriminate | ].
  intros H. injection H as _ <-. cbn [String.length]. lia.
Qed.

Lemma match_number_consumes (max_str_digits : nat) (s : string)
  (value : outcome pyobj) (r : string) :
  json.match_number max_str_digits s = Some (value, r) ->
  String.length r < String.length s.
Proof.
  unfold json.match_number.
  destruct (json.minus_sign s) as [neg s0] eqn:Hs.
  apply minus_sign_length in Hs.
  destruct (json.integer_part s0) as [[integer s1]|] eqn:Hi; [ | discriminate].
  apply integer_part_consumes in Hi.
  destruct (json.fraction_part s1) as [[d s2]|] eqn:Hf.
  - apply fraction_part_length in Hf.
    destruct (json.exponent_part s2) as [[e s3]|] eqn:He.
    + apply exponent_part_length in He.
      intros H. injection H as _ <-. lia.
    + intros H. injection H as _ <-. lia.
  - destruct (json.exponent_part s1) as [[e s3]|] eqn:He.
    + apply exponent_part_length in He.
      intros H. injection H as _ <-. lia.
    + intros H. injection H as _ <-. lia.
Qed.

(** The interpreter's digit limit decides only between an [int] and the
    [ValueError] of the limit. *)
Lemma int_from_string_cases (max_str_digits : nat) (neg : bool) (d : string) :
  json.exceeds_limit max_str_digits d = false /\
  json.int_from_string max_str_digits neg d =
    Return (PyInt (if neg then - json.int_of_digits d
                   else json.int_of_digits d)%Z)
  \/
  json.exceeds_limit max_str_digits d = true /\
  exists msg, json.int_from_string max_str_digits neg d = Raise (ValueError msg).
Proof.
  unfold json.int_from_string.
  destruct (json.exceeds_limit max_str_digits d); eauto.
Qed.

Lemma exceeds_limit_loosen (m1 m2 : nat) (d : string) :
  looser_digits m1 m2 ->
  json.exceeds_limit m1 d = false -> json.exceeds_limit m2 d = false.
Proof.
  unfold json.exceeds_limit, looser_digits. intros Hl H.
  destruct (Nat.ltb_spec 640 (String.length d));
    destruct (Nat.ltb_spec 0 m1); destruct (Nat.ltb_spec m1 (String.length d));
    destruct (Nat.ltb_spec 0 m2); destruct (Nat.ltb_spec m2 (String.length d));
    cbn in *; try reflexivity; try discriminate; lia.
Qed.

Lemma match_number_raises (m : nat) (s : string) (e : exn) (r : string) :
  json.match_number m s = Some (Raise e, r) -> exists msg, e = ValueError msg.
Proof.
  unfold json.match_number.
  destruct (json.minus_sign s) as [neg s0].
  destruct (json.integer_part s0) as [[integer s1]|]; [ | discriminate].
  destruct (json.fraction_part s1) as [[d s2]|];
    [destruct (json.exponent_part s2) as [[x s3]|]
    |destruct (json.exponent_part s1) as [[x s3]|]]; try discriminate.
  destruct (int_from_string_cases m neg integer) as [[_ ->] | [_ [msg ->]]];
    [discriminate | ].
  intros H. injection H as <- _. eauto.
Qed.

Lemma match_number_loosen (m1 m2 : nat) (s : string) :
  looser_digits m1 m2 ->
  (json.match_number m1 s = None -> json.match_number m2 s = None) /\
  (forall value r,
     json.match_number m1 s = Some (Return value, r) ->
     json.match_number m2 s = Some (Return value, r)).
Proof.
  intros Hl. unfold json.match_number.
  destruct (json.minus_sign s) as [neg s0].
  destruct (json.integer_part s0) as [[integer s1]|];
    [ | split; [reflexivity | discriminate]].
  destruct (json.fraction_part s1) as [[d s2]|];
    [destruct (json.exponent_part s2) as [[x s3]|]
    |destruct (json.exponent_part s1) as [[x s3]|]];
    try (split; [discriminate | tauto]).
  split; [discriminate | ].
  intros value r.
  destruct (int_from_string_cases m1 neg integer) as [[H1 ->] | [_ [msg ->]]];
    [ | discriminate].
  apply (exceeds_limit_loosen m1 m2 integer Hl) in H1.
  unfold json.int_from_string. now rewrite H1.
Qed.

Lemma match_number_unlimited (s : string) (e : exn) (r : string) :
  json.match_number 0 s <> Some (Raise e, r).
Proof.
  intros H. unfold json.match_number in H.
  destruct (json.minus_sign s) as [neg s0].
  destruct (json.integer_part s0) as [[integer s1]|]; [ | discriminate].
  destruct (json.fraction_part s1) as [[d s2]|];
    [destruct (json.exponent_part s2) as [[x s3]|]
    |destruct (json.exponent_part s1) as [[x s3]|]]; try discriminate.
  unfold json.int_from_string, json.exceeds_limit in H.
  rewrite andb_false_r in H. cbn in H. discriminate.
Qed.

Lemma drop_prefix_length (p s r : string) :
  json.drop_prefix p s = Some r ->
  String.length s = String.length p + String.length r.
Proof.
  revert s. induction p as [|a p IH]; intros s; cbn [json.drop_prefix].
  - intros H. injection H as <-. reflexivity.
  - destruct s as [|b s]; [discriminate | ].
    destruct (Ascii.eqb a b); [ | discriminate].
    intros H. apply IH in H. cbn [String.length]. lia.
Qed.

Lemma constant_consumes (s : string) (value : pyobj) (r : string) :
  json.constant s = Some (value, r) -> String.length r < String.length s.
Proof.
  unfold json.constant.
  repeat match goal with
  | |- context [json.drop_prefix ?p s] =>
      let H := fresh "Hp" in
      destruct (json.drop_prefix p s) eqn:H;
      [apply drop_prefix_length in H; cbn [String.length] in H | ]
  end; try discriminate;
  intros H; injection H as _ <-; lia.
Qed.

Lemma float_constant_consumes (s : string) (value : pyobj) (r : string) :
  json.float_constant s = Some (value, r) ->
  String.length r < String.length s.
Proof.
  unfold json.float_constant.
  repeat match goal with
  | |- context [json.drop_prefix ?p s] =>
      let H := fresh "Hp" in
      destruct (json.drop_prefix p s) eqn:H;
      [apply drop_prefix_length in H; cbn [String.length] in H | ]
  end; try discriminate;
  intros H; injection H as _ <-; lia.
Qed.

(** One step through the body of a scanner: a case on what it scans
    next.  [ok], [raised] and [exhausted] say what to do with the result
    of a scanner called from the body. *)
Ltac scan_case ok raised exhausted :=
  match goal with
  | |- context [match json.skip_whitespace ?t with _ => _ end] =>
      let H := fresh "Hws" in
      pose proof (skip_whitespace_length t) as H;
      destruct (json.skip_whitespace t)
  | |- context [match json.scanstring ?b ?t with _ => _ end] =>
      let H := fresh "Hstr" in
      destruct (json.scanstring b t) as [[? ?] | ? ? | ? | ] eqn:H;
      [ apply (proj2 (proj2 (scanstring_consumes _ b t (le_n _)))) in H
      |
      | exfalso;
        exact (proj1 (proj2 (scanstring_consumes _ b t (le_n _))) _ H)
      | exfalso; exact (proj1 (scanstring_consumes _ b t (le_n _)) H) ]
  | |- context [match json.scan_once ?d ?h ?m ?t with _ => _ end] =>
      let H := fresh "Hval" in
      destruct (json.scan_once d h m t) as [[? ?] | ? ? | ? | ] eqn:H;
      [ ok H | | raised H | exhausted H ]
  | |- context [match json.array_values ?d ?h ?m ?t with _ => _ end] =>
      let H := fresh "Harr" in
      destruct (json.array_values d h m t) as [[? ?] | ? ? | ? | ] eqn:H;
      [ ok H | | raised H | exhausted H ]
  | |- context [match json.object_pairs ?d ?h ?m ?t with _ => _ end] =>
      let H := fresh "Hobj" in
      destruct (json.object_pairs d h m t) as [[? ?] | ? ? | ? | ] eqn:H;
      [ ok H | | raised H | exhausted H ]
  | |- context [match json.constant ?t with _ => _ end] =>
      let H := fresh "Hconst" in
      destruct (json.constant t) as [[? ?] | ] eqn:H;
      [ apply constant_consumes in H | ]
  | |- context [match json.match_number ?m ?t with _ => _ end] =>
      let H := fresh "Hnum" in
      destruct (json.match_number m t) as [[[? | ?] ?] | ] eqn:H;
      [ pose proof (match_number_consumes _ _ _ _ H)
      | pose proof (match_number_raises _ _ _ _ H)
      | ]
  | |- context [match json.float_constant ?t with _ => _ end] =>
      let H := fresh "Hfloat" in
      destruct (json.float_constant t) as [[? ?] | ] eqn:H;
      [ apply float_constant_consumes in H | ]
  | |- context [match ?h with O => _ | S _ => _ end] =>
      is_var h; destruct h
  | |- context [if ?b then _ else _] => destruct b
  end.

(** What skipping whitespace leaves is no longer than what it was given. *)
Ltac whitespace_facts :=
  repeat match goal with
  | H : context [json.skip_whitespace ?t] |- _ =>
      lazymatch goal with
      | _ : String.length (json.skip_whitespace t) <= String.length t |- _ =>
          fail
      | _ => pose proof (skip_whitespace_length t)
      end
  | |- context [json.skip_whitespace ?t] =>
      lazymatch goal with
      | _ : String.length (json.skip_whitespace t) <= String.length t |- _ =>
          fail
      | _ => pose proof (skip_whitespace_length t)
      end
  end.

(** Every value scanned leaves less of the document. *)
Lemma scan_consumes (steps : nat) :
  forall headroom max_str_digits,
  (forall s value r,
     json.scan_once steps headroom max_str_digits s = json.Ok (value, r) ->
     String.length r < String.length s) /\
  (forall s values r,
     json.array_values steps headroom max_str_digits s = json.Ok (values, r) ->
     String.length r < String.length s) /\
  (forall s pairs r,
     json.object_pairs steps headroom max_str_digits s = json.Ok (pairs, r) ->
     String.length r < String.length s).
Proof.
  induction steps as [|steps IH]; intros headroom max_str_digits.
  - repeat split; intros; discriminate.
  - repeat split; intros s result r;
      cbn [json.scan_once json.array_values json.object_pairs];
      try (destruct s as [|first s]; [discriminate | ]);
      repeat scan_case
        ltac:(fun H =>
                first [ apply (proj1 (IH _ _)) in H
                      | apply (proj1 (proj2 (IH _ _))) in H
                      | apply (proj2 (proj2 (IH _ _))) in H ])
        ltac:(fun H => idtac) ltac:(fun H => idtac);
      intros Hok; try discriminate;
      injection Hok as _ <-; whitespace_facts; cbn [String.length] in *; lia.
Qed.

(** The steps [json.steps_for] allows are never used up. *)
Lemma scan_within_steps (steps : nat) :
  forall headroom max_str_digits,
  (forall s, 2 * String.length s + 1 <= steps ->
     json.scan_once steps headroom max_str_digits s <> json.Exhausted) /\
  (forall s, 2 * String.length s + 2 <= steps ->
     json.array_values steps headroom max_str_digits s <> json.Exhausted) /\
  (forall s, 2 * String.length s + 2 <= steps ->
     json.object_pairs steps headroom max_str_digits s <> json.Exhausted).
Proof.
  induction steps as [|steps IH]; intros headroom max_str_digits.
  - repeat split; intros s Hd; lia.
  - repeat split; intros s Hd;
      cbn [json.scan_once json.array_values json.object_pairs];
      try (destruct s as [|first s]; [discriminate | ]);
      repeat scan_case
        ltac:(fun H =>
                first [ apply (proj1 (scan_consumes _ _ _)) in H
                      | apply (proj1 (proj2 (scan_consumes _ _ _))) in H
                      | apply (proj2 (proj2 (scan_consumes _ _ _))) in H ])
        ltac:(fun H => idtac)
        ltac:(fun H =>
                exfalso; revert H;
                first [ apply (proj1 (IH _ _))
                      | apply (proj1 (proj2 (IH _ _)))
                      | apply (proj2 (proj2 (IH _ _))) ];
                whitespace_facts; cbn [String.length] in *; lia);
      discriminate.
Qed.

Lemma scan_raises (steps : nat) :
  forall headroom max_str_digits,
  (forall s e,
     json.scan_once steps headroom max_str_digits s = json.Raised e ->
     limit_error e) /\
  (forall s e,
     json.array_values steps headroom max_str_digits s = json.Raised e ->
     limit_error e) /\
  (forall s e,
     json.object_pairs steps headroom max_str_digits s = json.Raised e ->
     limit_error e).
Proof.
  induction steps as [|steps IH]; intros headroom max_str_digits.
  - repeat split; intros; discriminate.
  - repeat split; intros s e;
      cbn [json.scan_once json.array_values json.object_pairs];
      try (destruct s as [|first s]; [discriminate | ]);
      repeat scan_case
        ltac:(fun H => idtac)
        ltac:(fun H =>
                first [ apply (proj1 (IH _ _)) in H
                      | apply (proj1 (proj2 (IH _ _))) in H
                      | apply (proj2 (proj2 (IH _ _))) in H ])
        ltac:(fun H => idtac);
      intros Hr; try discriminate; injection Hr as <-;
      first [ assumption | now left | now right ].
Qed.

(** With headroom for the whole document and no digit limit, a scanner
    raises nothing. *)
Lemma scan_unlimited (steps : nat) :
  forall headroom,
  (forall s e, String.length s <= headroom ->
     json.scan_once steps headroom 0 s <> json.Raised e) /\
  (forall s e, String.length s <= headroom ->
     json.array_values steps headroom 0 s <> json.Raised e) /\
  (forall s e, String.length s <= headroom ->
     json.object_pairs steps headroom 0 s <> json.Raised e).
Proof.
  induction steps as [|steps IH]; intros headroom.
  - repeat split; intros; discriminate.
  - repeat split; intros s e Hh;
      cbn [json.scan_once json.array_values json.object_pairs];
      try (destruct s as [|first s]; [discriminate | ]);
      repeat scan_case
        ltac:(fun H =>
                first [ apply (proj1 (scan_consumes _ _ _)) in H
                      | apply (proj1 (proj2 (scan_consumes _ _ _))) in H
                      | apply (proj2 (proj2 (scan_consumes _ _ _))) in H ])
        ltac:(fun H =>
                exfalso; revert H;
                first [ apply (proj1 (IH _))
                      | apply (proj1 (proj2 (IH _)))
                      | apply (proj2 (proj2 (IH _))) ];
                whitespace_facts; cbn [String.length] in *; lia)
        ltac:(fun H => idtac);
      try discriminate;
      try (cbn [String.length] in Hh; lia);
      try (exfalso; eapply match_number_unlimited; eassumption).
Qed.

(** One step through the bodies of a scanner under the limits [m1] and
    under the looser limits [m2], side by side. *)
Ltac loosen_case m1 m2 IH Hl :=
  match goal with
  | |- context [match json.skip_whitespace ?t with _ => _ end] =>
      destruct (json.skip_whitespace t)
  | |- context [match json.scanstring ?b ?t with _ => _ end] =>
      destruct (json.scanstring b t) as [[? ?] | ? ? | ? | ]
  | |- context [match json.scan_once ?d ?h m1 ?t with _ => _ end] =>
      match goal with
      | |- context [json.scan_once d ?h' m2 t] =>
          let H := fresh "Hval" in
          destruct (json.scan_once d h m1 t) as [[? ?] | ? ? | ? | ] eqn:H;
          [ rewrite (proj1 (IH h h' m1 m2 ltac:(lia) Hl) t _ H I)
          | rewrite (proj1 (IH h h' m1 m2 ltac:(lia) Hl) t _ H I)
          | | ]
      end
  | |- context [match json.array_values ?d ?h m1 ?t with _ => _ end] =>
      match goal with
      | |- context [json.array_values d ?h' m2 t] =>
          let H := fresh "Harr" in
          destruct (json.array_values d h m1 t) as [[? ?] | ? ? | ? | ] eqn:H;
          [ rewrite (proj1 (proj2 (IH h h' m1 m2 ltac:(lia) Hl)) t _ H I)
          | rewrite (proj1 (proj2 (IH h h' m1 m2 ltac:(lia) Hl)) t _ H I)
          | | ]
      end
  | |- context [match json.object_pairs ?d ?h m1 ?t with _ => _ end] =>
      match goal with
      | |- context [json.object_pairs d ?h' m2 t] =>
          let H := fresh "Hobj" in
          destruct (json.object_pairs d h m1 t) as [[? ?] | ? ? | ? | ] eqn:H;
          [ rewrite (proj2 (proj2 (IH h h' m1 m2 ltac:(lia) Hl)) t _ H I)
          | rewrite (proj2 (proj2 (IH h h' m1 m2 ltac:(lia) Hl)) t _ H I)
          | | ]
      end
  | |- context [match json.constant ?t with _ => _ end] =>
      destruct (json.constant t) as [[? ?] | ]
  | |- context [match json.match_number m1 ?t with _ => _ end] =>
      let H := fresh "Hnum" in
      destruct (json.match_number m1 t) as [[[? | ?] ?] | ] eqn:H;
      [ rewrite (proj2 (match_number_loosen m1 m2 t Hl) _ _ H)
      |
      | rewrite (proj1 (match_number_loosen m1 m2 t Hl) H) ]
  | |- context [match json.float_constant ?t with _ => _ end] =>
      destruct (json.float_constant t) as [[? ?] | ]
  | |- context [match ?h with O => _ | S _ => _ end] =>
      is_var h; destruct h
  | |- context [if ?b then _ else _] => destruct b
  end.

(** Looser limits change nothing in a scan that the tighter limits let
    through: it comes to the same value, or to the same fault. *)
Lemma scan_loosen (steps : nat) :
  forall h1 h2 m1 m2, h1 <= h2 -> looser_digits m1 m2 ->
  (forall s r,
     json.scan_once steps h1 m1 s = r -> settled r ->
     json.scan_once steps h2 m2 s = r) /\
  (forall s r,
     json.array_values steps h1 m1 s = r -> settled r ->
     json.array_values steps h2 m2 s = r) /\
  (forall s r,
     json.object_pairs steps h1 m1 s = r -> settled r ->
     json.object_pairs steps h2 m2 s = r).
Proof.
  induction steps as [|steps IH]; intros h1 h2 m1 m2 Hh Hl.
  - repeat split; intros s r <- [].
  - repeat split; intros s r <-;
      cbn [json.scan_once json.array_values json.object_pairs];
      try (destruct s as [|first s]; [intros _; reflexivity | ]);
      repeat loosen_case m1 m2 IH Hl;
      cbn [settled];
      first [ intros _; reflexivity | intros H; exact (match H with end) | lia ].
Qed.

(** ** The decoder in an interpreter *)

Lemma limit_error_is_no_decode_error (e : exn) :
  limit_error e -> is_JSONDecodeError e = false.
Proof. intros [-> | [msg ->]]; reflexivity. Qed.

(** [json.loads] returns, raises the [JSONDecodeError] of a fault in the
    document, or raises the error of a limit of the interpreter. *)
Lemma loads_in_cases (st : interpreter) (s : string) :
  (exists obj, json.loads_in st s = Return obj) \/
  (exists msg pos, json.loads_in st s = Raise (JSONDecodeError msg pos)) \/
  (exists e, json.loads_in st s = Raise e /\ limit_error e).
Proof.
  unfold json.loads_in.
  destruct (startswith s json.BOM); [right; left; eauto | ].
  destruct (json.scan_once (json.steps_for s) (recursion_headroom st)
              (int_max_str_digits st) (json.skip_whitespace s))
    as [[obj rest] | msg rest | e | ] eqn:Hscan.
  - destruct (json.skip_whitespace rest); [left | right; left]; eauto.
  - right. left. eauto.
  - right. right. exists e. split; [reflexivity | ].
    exact (proj1 (scan_raises _ _ _) _ _ Hscan).
  - exfalso. revert Hscan.
    apply (proj1 (scan_within_steps _ _ _)).
    pose proof (skip_whitespace_length s). unfold json.steps_for. lia.
Qed.

(** With the limits out of its way the decoder tells whether a document
    is valid JSON: it returns, or raises [JSONDecodeError]. *)
Lemma parse_cases (s : string) :
  (exists obj, json.parse s = Return obj) \/
  (exists msg pos, json.parse s = Raise (JSONDecodeError msg pos)).
Proof.
  unfold json.parse.
  destruct (loads_in_cases
              {| recursion_headroom := String.length s;
                 int_max_str_digits := 0 |} s)
    as [H | [H | [e [H He]]]]; [now left | now right | ].
  exfalso. apply limit_error_is_no_decode_error in He.
  revert H. unfold json.loads_in.
  destruct (startswith s json.BOM);
    [intros H; injection H as <-; discriminate | ].
  cbn [recursion_headroom int_max_str_digits].
  destruct (json.scan_once (json.steps_for s) (String.length s) 0
              (json.skip_whitespace s))
    as [[obj rest] | msg rest | e' | ] eqn:Hscan.
  - destruct (json.skip_whitespace rest); intros H;
      [discriminate | injection H as <-; discriminate].
  - intros H. injection H as <-. discriminate.
  - exfalso. revert Hscan.
    apply (proj1 (scan_unlimited _ _)). apply skip_whitespace_length.
  - exfalso. revert Hscan.
    apply (proj1 (scan_within_steps _ _ _)).
    pose proof (skip_whitespace_length s). unfold json.steps_for. lia.
Qed.

(** An interpreter with looser limits decodes as one that stayed within
    its own. *)
Lemma loads_in_loosen (st1 st2 : interpreter) (s : string) :
  recursion_headroom st1 <= recursion_headroom st2 ->
  looser_digits (int_max_str_digits st1) (int_max_str_digits st2) ->
  within_limits st1 s ->
  json.loads_in st2 s = json.loads_in st1 s.
Proof.
  intros Hh Hm Hw. unfold within_limits in Hw. unfold json.loads_in in *.
  destruct (startswith s json.BOM); [reflexivity | ].
  destruct (json.scan_once (json.steps_for s) (recursion_headroom st1)
              (int_max_str_digits st1) (json.skip_whitespace s))
    as [[obj rest] | msg rest | e | ] eqn:Hscan.
  - now rewrite (proj1 (scan_loosen _ _ _ _ _ Hh Hm) _ _ Hscan I).
  - now rewrite (proj1 (scan_loosen _ _ _ _ _ Hh Hm) _ _ Hscan I).
  - specialize (Hw e eq_refl).
    apply (proj1 (scan_raises _ _ _)) in Hscan.
    apply limit_error_is_no_decode_error in Hscan. congruence.
  - specialize (Hw RecursionError eq_refl). discriminate.
Qed.

(** Two interpreters that both stay within their limits decode alike. *)
Lemma loads_in_agree (st1 st2 : interpreter) (s : string) :
  within_limits st1 s -> within_limits st2 s ->
  json.loads_in st1 s = json.loads_in st2 s.
Proof.
  intros H1 H2.
  set (m1 := int_max_str_digits st1). set (m2 := int_max_str_digits st2).
  set (both :=
         {| recursion_headroom :=
              Nat.max (recursion_headroom st1) (recursion_headroom st2);
            int_max_str_digits :=
              if (m1 =? 0)%nat || (m2 =? 0)%nat then 0 else Nat.max m1 m2 |}).
  assert (Hl : looser_digits m1 (int_max_str_digits both) /\
               looser_digits m2 (int_max_str_digits both)).
  { unfold looser_digits. cbn [int_max_str_digits both].
    destruct (Nat.eqb_spec m1 0); destruct (Nat.eqb_spec m2 0);
      cbn [orb]; split; auto; right; split; auto; lia. }
  destruct Hl as [Hl1 Hl2].
  rewrite <- (loads_in_loosen st1 both s); [ | cbn; lia | exact Hl1 | exact H1].
  rewrite <- (loads_in_loosen st2 both s); [ | cbn; lia | exact Hl2 | exact H2].
  reflexivity.
Qed.

(** An interpreter that stays within its limits decodes as the grammar
    says. *)
Lemma loads_in_parse (st : interpreter) (s : string) :
  within_limits st s -> json.loads_in st s = json.parse s.
Proof.
  intros Hw. unfold json.parse. apply loads_in_agree; [exact Hw | ].
  intros e He.
  destruct (parse_cases s) as [[obj H] | [msg [pos H]]];
    unfold json.parse in H; rewrite H in He.
  - discriminate.
  - injection He as <-. reflexivity.
Qed.

(** A helper asks the decoder for the payload, and for nothing else. *)
Lemma helpers_read_decoder_at_payload {World : Type}
  (loads1 loads2 : string -> outcome pyobj) (payload : string) (w : World) :
  loads1 payload = loads2 payload ->
  _ensure_approle_auth_enabled loads1 payload w =
    _ensure_approle_auth_enabled loads2 payload w /\
  _generate_secret_id loads1 payload w = _generate_secret_id loads2 payload w.
Proof.
  intros H. unfold _ensure_approle_auth_enabled, _generate_secret_id.
  now rewrite H.
Qed.

(** ** Contracts that depend on the interpreter *)

(** C5, amended. A payload that is not valid JSON, decoded within the
    limits of the interpreter (so that [json.loads] raises
    [JSONDecodeError], not the [RecursionError] of the recursion limit
    nor the [ValueError] of the digit limit): the Verifier fails with a
    [VaultBootstrapError] whose message is "Failed to decode Vault
    response whilst verifying AppRole auth", the Extractor with one
    whose message is "Failed to decode Vault response whilst generating
    a secret-id"; each is raised from the decoder's error. *)
Theorem invalid_json_is_rejected_within_limits
  (st : interpreter) (payload : string) :
  ~ valid_json payload ->
  within_limits st payload ->
  exists msg pos,
    json.parse payload = Raise (JSONDecodeError msg pos) /\
    invoke _ensure_approle_auth_enabled payload st =
      (Raise
         (VaultBootstrapError
            "Failed to decode Vault response whilst verifying AppRole auth"
            (Some (JSONDecodeError msg pos))), st) /\
    invoke _generate_secret_id payload st =
      (Raise
         (VaultBootstrapError
            "Failed to decode Vault response whilst generating a secret-id"
            (Some (JSONDecodeError msg pos))), st).
Proof.
  intros Hinvalid Hw.
  destruct (parse_cases payload) as [Hvalid | [msg [pos Hparse]]];
    [contradiction | ].
  exists msg, pos. split; [exact Hparse | ].
  unfold invoke. apply decode_error_is_wrapped.
  now rewrite (loads_in_parse st payload Hw).
Qed.

(** C9, amended. Neither helper changes anything outside its call, and
    two calls with equal payloads, made in interpreters that both decode
    the payload within their limits, have equal outcomes.  (What a
    helper reads outside its call, through [json.loads], is the
    interpreter's recursion headroom and digit limit.) *)
Theorem helpers_are_deterministic_within_limits
  (st1 st2 : interpreter) (payload : string) :
  within_limits st1 payload ->
  within_limits st2 payload ->
  (fst (invoke _ensure_approle_auth_enabled payload st1) =
     fst (invoke _ensure_approle_auth_enabled payload st2) /\
   snd (invoke _ensure_approle_auth_enabled payload st1) = st1 /\
   snd (invoke _ensure_approle_auth_enabled payload st2) = st2) /\
  (fst (invoke _generate_secret_id payload st1) =
     fst (invoke _generate_secret_id payload st2) /\
   snd (invoke _generate_secret_id payload st1) = st1 /\
   snd (invoke _generate_secret_id payload st2) = st2).
Proof.
  intros H1 H2. unfold invoke.
  destruct (helpers_read_decoder_at_payload
              (json.loads_in st1) (json.loads_in st2) payload st1
              (loads_in_agree st1 st2 payload H1 H2)) as [-> ->].
  destruct (_ensure_approle_auth_enabled_pure (World := interpreter)
              (json.loads_in st2) payload) as [r Hr].
  destruct (_generate_secret_id_pure (World := interpreter)
              (json.loads_in st2) payload) as [r' Hr'].
  now rewrite !Hr, !Hr'.
Qed.

(** C10. In every interpreter and on every payload each helper ends, in
    one of exactly two ways: it returns a value, or it raises an
    exception, never both.  Decoding ends within the steps the length of
    the payload allows, and the exception is one of the helper's two
    [VaultBootstrapError]s with their messages, the [AttributeError] of
    a missing [get], the [TypeError] of a membership test, or the
    [RecursionError] or the [ValueError] of a limit of the interpreter;
    the decoder's [JSONDecodeError] never leaves a helper. *)
Theorem helpers_end_in_one_of_two_ways
  (st : interpreter) (payload : string) :
  json.scan_once (json.steps_for payload) (recursion_headroom st)
    (int_max_str_digits st) (json.skip_whitespace payload) <> json.Exhausted
  /\
  (ends_in_one_of_two_ways st (invoke _ensure_approle_auth_enabled payload st)
   /\
   helper_exit
     "Failed to decode Vault response whilst verifying AppRole auth"
     "AppRole authentication is not enabled for the target Vault"
     (fst (invoke _ensure_approle_auth_enabled payload st)))
  /\
  (ends_in_one_of_two_ways st (invoke _generate_secret_id payload st)
   /\
   helper_exit
     "Failed to decode Vault response whilst generating a secret-id"
     "Vault response missing secret_id field"
     (fst (invoke _generate_secret_id payload st))).
Proof.
  split.
  { apply (proj1 (scan_within_steps _ _ _)).
    pose proof (skip_whitespace_length payload). unfold json.steps_for. lia. }
  assert (Hends : forall m : M interpreter pyobj, pure m ->
            ends_in_one_of_two_ways st (m st)).
  { intros m [r Hr]. unfold ends_in_one_of_two_ways. rewrite Hr. split.
    - destruct r; eauto.
    - intros [[v [w1 H1]] [e [w2 H2]]]. congruence. }
  unfold invoke.
  split; (split; [apply Hends;
                  first [ apply _ensure_approle_auth_enabled_pure
                        | apply _generate_secret_id_pure ] | ]);
    unfold _ensure_approle_auth_enabled, _generate_secret_id,
      bind, try_except, call, ret, raise, py_not_in;
    destruct (loads_in_cases st payload)
      as [[data ->] | [[msg [pos ->]] | [e [-> [-> | [msg ->]]]]]];
    cbn [is_JSONDecodeError fst]; try constructor.
  - destruct data; cbn [py_get type_name fst]; try constructor.
    destruct (dict_get items "data" (PyDict []));
      cbn [py_in type_name fst]; try constructor;
      match goal with
      | |- context [negb ?b] => destruct b
      end; cbn [negb fst]; constructor.
  - destruct data; cbn [py_get type_name fst]; try constructor.
    destruct (dict_get items "data" (PyDict []));
      cbn [py_get type_name fst]; try constructor.
    match goal with
    | |- context [py_not ?v] => destruct (py_not v)
    end; cbn [fst]; constructor.
Qed.

(** ** The contracts at work

    The helpers run on [json.loads], in the world [environ]. *)

(** The six scenarios of the specification. *)

Example scenario_1 :
  _ensure_approle_auth_enabled json.loads
    (doc "{'data': {'approle': {'type': 'approle'}}}") environ =
  (Return (PyDict [("approle", PyDict [("type", PyStr "approle")])]), environ).
Proof. vm_compute. reflexivity. Qed.

Example scenario_2 :
  _ensure_approle_auth_enabled json.loads (doc "{'data': {}}") environ =
  (Raise
     (VaultBootstrapError
        "AppRole authentication is not enabled for the target Vault" None),
   environ).
Proof. vm_compute. reflexivity. Qed.

Example scenario_3 :
  _ensure_approle_auth_enabled json.loads "not json" environ =
  (Raise
     (VaultBootstrapError
        "Failed to decode Vault response whilst verifying AppRole auth"
        (Some (JSONDecodeError "Expecting value" 0))),
   environ).
Proof. vm_compute. reflexivity. Qed.

Example scenario_4 :
  _generate_secret_id json.loads (doc "{'data': {'secret_id': 'abc123'}}")
    environ =
  (Return (PyStr "abc123"), environ).
Proof. vm_compute. reflexivity. Qed.

Example scenario_5 :
  _generate_secret_id json.loads (doc "{'data': {'secret_id': ''}}") environ =
  (Raise (VaultBootstrapError "Vault response missing secret_id field" None),
   environ).
Proof. vm_compute. reflexivity. Qed.

Example scenario_6 :
  _generate_secret_id json.loads "{}" environ =
  (Raise (VaultBootstrapError "Vault response missing secret_id field" None),
   environ).
Proof. vm_compute. reflexivity. Qed.

(** Further payloads: a ["data"] member that is an array, one that is
    [null], and a [secret_id] that is a number too small for a [float]
    other than zero. *)

Example data_array :
  _ensure_approle_auth_enabled json.loads (doc "{'data': ['approle']}")
    environ =
  (Return (PyList [PyStr "approle"]), environ).
Proof. vm_compute. reflexivity. Qed.

Example data_null_verifier :
  _ensure_approle_auth_enabled json.loads (doc "{'data': null}") environ =
  (Raise (TypeError "NoneType"), environ).
Proof. vm_compute. reflexivity. Qed.

Example data_null_extractor :
  _generate_secret_id json.loads (doc "{'data': null}") environ =
  (Raise (AttributeError "NoneType" "get"), environ).
Proof. vm_compute. reflexivity. Qed.

Example secret_id_underflow :
  _generate_secret_id json.loads (doc "{'data': {'secret_id': 1e-400}}")
    environ =
  (Raise (VaultBootstrapError "Vault response missing secret_id field" None),
   environ).
Proof. vm_compute. reflexivity. Qed.

(** C1 at the payload of scenario 1. *)
Lemma verifier_returns_data_mapping_witness :
  json.loads (doc "{'data': {'approle': {'type': 'approle'}}}") =
    Return
      (PyDict [("data", PyDict [("approle", PyDict [("type", PyStr "approle")])])])
  /\
  In "approle" (dict_keys [("approle", PyDict [("type", PyStr "approle")])])
  /\
  _ensure_approle_auth_enabled json.loads
    (doc "{'data': {'approle': {'type': 'approle'}}}") environ =
  (Return (PyDict [("approle", PyDict [("type", PyStr "approle")])]), environ).
Proof.
  split; [vm_compute; reflexivity | ].
  split; [simpl; auto | ].
  apply (@verifier_returns_data_mapping _ json.loads _ environ
           [("data", PyDict [("approle", PyDict [("type", PyStr "approle")])])]
           [("approle", PyDict [("type", PyStr "approle")])]).
  - vm_compute. reflexivity.
  - reflexivity.
  - simpl. auto.
Defined.

(** C2 at the payload of scenario 4. *)
Lemma extractor_returns_secret_id_string_witness :
  json.loads (doc "{'data': {'secret_id': 'abc123'}}") =
    Return (PyDict [("data", PyDict [("secret_id", PyStr "abc123")])])
  /\
  "abc123" <> ""
  /\
  _generate_secret_id json.loads (doc "{'data': {'secret_id': 'abc123'}}")
    environ =
  (Return (PyStr "abc123"), environ).
Proof.
  split; [vm_compute; reflexivity | ].
  split; [discriminate | ].
  apply (@extractor_returns_secret_id_string _ json.loads _ environ
           [("data", PyDict [("secret_id", PyStr "abc123")])]
           [("secret_id", PyStr "abc123")] "abc123").
  - vm_compute. reflexivity.
  - reflexivity.
  - reflexivity.
  - discriminate.
Defined.

(** C3 at a payload whose ["data"] mapping lists another auth method. *)
Lemma verifier_rejects_missing_approle_witness :
  json.loads (doc "{'data': {'token': {'type': 'token'}}}") =
    Return (PyDict [("data", PyDict [("token", PyDict [("type", PyStr "token")])])])
  /\
  ~ In "approle" (dict_keys [("token", PyDict [("type", PyStr "token")])])
  /\
  _ensure_approle_auth_enabled json.loads
    (doc "{'data': {'token': {'type': 'token'}}}") environ =
  (Raise
     (VaultBootstrapError
        "AppRole authentication is not enabled for the target Vault" None),
   environ).
Proof.
  assert (Hkey : ~ In "approle"
                     (dict_keys [("token", PyDict [("type", PyStr "token")])])).
  { simpl. intros [H | []]. discriminate. }
  split; [vm_compute; reflexivity | ].
  split; [exact Hkey | ].
  apply (@verifier_rejects_missing_approle _ json.loads _ environ
           [("data", PyDict [("token", PyDict [("type", PyStr "token")])])]
           [("token", PyDict [("type", PyStr "token")])]).
  - vm_compute. reflexivity.
  - reflexivity.
  - exact Hkey.
Defined.


(** C5 as stated fails: a thousand opening brackets are not valid JSON,
    and in a fresh interpreter the decoder runs into the recursion limit
    before it finds the fault; its [RecursionError], no
    [VaultBootstrapError], leaves both helpers. *)
Lemma deep_nesting_raises_recursion_error :
  json.parse (str_mul "[" 1000) = Raise (JSONDecodeError "Expecting value" 1000)
  /\
  _ensure_approle_auth_enabled json.loads (str_mul "[" 1000) environ =
    (Raise RecursionError, environ)
  /\
  _generate_secret_id json.loads (str_mul "[" 1000) environ =
    (Raise RecursionError, environ)
  /\
  is_VaultBootstrapError RecursionError = false.
Proof. repeat split; vm_compute; reflexivity. Qed.

(** Nor is an integer of 4301 digits followed by a stray word valid
    JSON; there the [ValueError] of the digit limit leaves the helpers. *)
Example long_integer_raises_value_error :
  json.parse (str_mul "1" 4301 ++ " x") = Raise (JSONDecodeError "Extra data" 4302)
  /\
  _ensure_approle_auth_enabled json.loads (str_mul "1" 4301 ++ " x") environ =
    (Raise
       (ValueError
          "Exceeds the limit (4300 digits) for integer string conversion: value has 4301 digits; use sys.set_int_max_str_digits() to increase the limit"),
     environ).
Proof. split; vm_compute; reflexivity. Qed.

(** C5, amended, at the payload of scenario 3, in a fresh interpreter. *)
Lemma invalid_json_is_rejected_within_limits_witness :
  ~ valid_json "not json"
  /\
  within_limits fresh_interpreter "not json"
  /\
  invoke _ensure_approle_auth_enabled "not json" fresh_interpreter =
    (Raise
       (VaultBootstrapError
          "Failed to decode Vault response whilst verifying AppRole auth"
          (Some (JSONDecodeError "Expecting value" 0))), fresh_interpreter)
  /\
  invoke _generate_secret_id "not json" fresh_interpreter =
    (Raise
       (VaultBootstrapError
          "Failed to decode Vault response whilst generating a secret-id"
          (Some (JSONDecodeError "Expecting value" 0))), fresh_interpreter).
Proof.
  assert (Hparse : json.parse "not json" =
                     Raise (JSONDecodeError "Expecting value" 0))
    by (vm_compute; reflexivity).
  assert (Hloads : json.loads_in fresh_interpreter "not json" =
                     Raise (JSONDecodeError "Expecting value" 0))
    by (vm_compute; reflexivity).
  assert (Hinvalid : ~ valid_json "not json").
  { intros [obj H]. rewrite Hparse in H. discriminate. }
  assert (Hwithin : within_limits fresh_interpreter "not json").
  { intros e H. rewrite Hloads in H. injection H as <-. reflexivity. }
  split; [exact Hinvalid | ]. split; [exact Hwithin | ].
  destruct (invalid_json_is_rejected_within_limits fresh_interpreter
              "not json" Hinvalid Hwithin)
    as (msg & pos & H & Hv & Hx).
  rewrite Hparse in H. injection H as <- <-.
  split; [exact Hv | exact Hx].
Defined.

(** C6 as stated fails: a JSON array is valid JSON, and on it both
    helpers fail with an [AttributeError], no [VaultBootstrapError]. *)
Lemma array_document_raises_attribute_error :
  json.loads "[]" = Return (PyList [])
  /\
  _ensure_approle_auth_enabled json.loads "[]" environ =
    (Raise (AttributeError "list" "get"), environ)
  /\
  _generate_secret_id json.loads "[]" environ =
    (Raise (AttributeError "list" "get"), environ)
  /\
  is_VaultBootstrapError (AttributeError "list" "get") = false.
Proof. repeat split; vm_compute; reflexivity. Qed.

(** C6, amended, at the payload of scenario 2. *)
Lemma failures_are_bootstrap_errors_witness :
  json.loads (doc "{'data': {}}") = Return (PyDict [("data", PyDict [])])
  /\
  is_container (dict_get [("data", PyDict [])] "data" (PyDict [])) = true
  /\
  _ensure_approle_auth_enabled json.loads (doc "{'data': {}}") environ =
    (Raise
       (VaultBootstrapError
          "AppRole authentication is not enabled for the target Vault" None),
     environ)
  /\
  is_VaultBootstrapError
    (VaultBootstrapError
       "AppRole authentication is not enabled for the target Vault" None) = true.
Proof.
  split; [vm_compute; reflexivity | ].
  split; [reflexivity | ].
  split; [vm_compute; reflexivity | ].
  refine (proj1
            (@failures_are_bootstrap_errors _ json.loads
               (doc "{'data': {}}") environ environ _) _ _).
  - right. exists [("data", PyDict [])]. split.
    + vm_compute. reflexivity.
    + reflexivity.
  - vm_compute. reflexivity.
Defined.

(** C7 as stated fails: a numeric [secret_id] is truthy, and the
    Extractor returns the [int], no text. *)
Lemma extractor_returns_number_not_text :
  json.loads (doc "{'data': {'secret_id': 7}}") =
    Return (PyDict [("data", PyDict [("secret_id", PyInt 7)])])
  /\
  truthy (PyInt 7) = true
  /\
  _generate_secret_id json.loads (doc "{'data': {'secret_id': 7}}") environ =
    (Return (PyInt 7), environ)
  /\
  is_str (PyInt 7) = false.
Proof. repeat split; vm_compute; reflexivity. Qed.

(** C7, amended, at the same payload. *)
Lemma extractor_returns_truthy_value_witness :
  json.loads (doc "{'data': {'secret_id': 7}}") =
    Return (PyDict [("data", PyDict [("secret_id", PyInt 7)])])
  /\
  truthy (PyInt 7) = true
  /\
  _generate_secret_id json.loads (doc "{'data': {'secret_id': 7}}") environ =
    (Return (PyInt 7), environ).
Proof.
  split; [vm_compute; reflexivity | ].
  split; [reflexivity | ].
  apply (@extractor_returns_truthy_value _ json.loads _ environ
           [("data", PyDict [("secret_id", PyInt 7)])]
           [("secret_id", PyInt 7)] (PyInt 7)).
  - vm_compute. reflexivity.
  - reflexivity.
  - reflexivity.
  - reflexivity.
Defined.

(** C8 at a payload whose ["data"] member is a string around
    ["approle"]. *)
Lemma verifier_membership_on_non_mapping_witness :
  json.loads (doc "{'data': 'xapprolex'}") =
    Return (PyDict [("data", PyStr "xapprolex")])
  /\
  is_dict (PyStr "xapprolex") = false
  /\
  _ensure_approle_auth_enabled json.loads (doc "{'data': 'xapprolex'}")
    environ =
  (Return (PyStr "xapprolex"), environ).
Proof.
  split; [vm_compute; reflexivity | ].
  split; [reflexivity | ].
  refine (proj1
            (proj1
               (@verifier_membership_on_non_mapping _ json.loads
                  (doc "{'data': 'xapprolex'}") environ
                  [("data", PyStr "xapprolex")] (PyStr "xapprolex") _ _ _)
               "xapprolex" eq_refl) _).
  - vm_compute. reflexivity.
  - reflexivity.
  - reflexivity.
  - exists "x", "x". reflexivity.
Defined.

(** C9 as stated fails: the same payload, three objects deep, is
    verified in a fresh interpreter and runs into the recursion limit in
    one whose stack leaves room for two; and so for the Extractor. *)
Lemma outcome_depends_on_recursion_headroom :
  fst (invoke _ensure_approle_auth_enabled
         (doc "{'data': {'approle': {}, 'secret_id': 's3cr3t'}}")
         fresh_interpreter) =
    Return (PyDict [("approle", PyDict []); ("secret_id", PyStr "s3cr3t")])
  /\
  fst (invoke _ensure_approle_auth_enabled
         (doc "{'data': {'approle': {}, 'secret_id': 's3cr3t'}}")
         {| recursion_headroom := 2; int_max_str_digits := 4300 |}) =
    Raise RecursionError
  /\
  fst (invoke _generate_secret_id
         (doc "{'data': {'approle': {}, 'secret_id': 's3cr3t'}}")
         fresh_interpreter) =
    Return (PyStr "s3cr3t")
  /\
  fst (invoke _generate_secret_id
         (doc "{'data': {'approle': {}, 'secret_id': 's3cr3t'}}")
         {| recursion_headroom := 2; int_max_str_digits := 4300 |}) =
    Raise RecursionError.
Proof. repeat split; vm_compute; reflexivity. Qed.

(** C9, amended, at the same payload, in a fresh interpreter and in one
    deep in its stack with the digit limit lifted. *)
Lemma helpers_are_deterministic_within_limits_witness :
  within_limits fresh_interpreter
    (doc "{'data': {'approle': {}, 'secret_id': 's3cr3t'}}")
  /\
  within_limits {| recursion_headroom := 3; int_max_str_digits := 0 |}
    (doc "{'data': {'approle': {}, 'secret_id': 's3cr3t'}}")
  /\
  fst (invoke _ensure_approle_auth_enabled
         (doc "{'data': {'approle': {}, 'secret_id': 's3cr3t'}}")
         fresh_interpreter) =
  fst (invoke _ensure_approle_auth_enabled
         (doc "{'data': {'approle': {}, 'secret_id': 's3cr3t'}}")
         {| recursion_headroom := 3; int_max_str_digits := 0 |})
  /\
  fst (invoke _generate_secret_id
         (doc "{'data': {'approle': {}, 'secret_id': 's3cr3t'}}")
         fresh_interpreter) =
  fst (invoke _generate_secret_id
         (doc "{'data': {'approle': {}, 'secret_id': 's3cr3t'}}")
         {| recursion_headroom := 3; int_max_str_digits := 0 |}).
Proof.
  assert (H1 : within_limits fresh_interpreter
                 (doc "{'data': {'approle': {}, 'secret_id': 's3cr3t'}}")).
  { intros e H. vm_compute in H. discriminate. }
  assert (H2 : within_limits
                 {| recursion_headroom := 3; int_max_str_digits := 0 |}
                 (doc "{'data': {'approle': {}, 'secret_id': 's3cr3t'}}")).
  { intros e H. vm_compute in H. discriminate. }
  split; [exact H1 | ]. split; [exact H2 | ].
  destruct (helpers_are_deterministic_within_limits fresh_interpreter
              {| recursion_headroom := 3; int_max_str_digits := 0 |}
              (doc "{'data': {'approle': {}, 'secret_id': 's3cr3t'}}") H1 H2)
    as [[Hv _] [Hx _]].
  split; [exact Hv | exact Hx].
Defined.

(** ** What else the helpers do

    Behaviour read off the two function bodies and the class statement
    beyond the contracts above: what a returned value guarantees, which
    exceptions get through, and what the messages tell. *)

Section Behaviour.

Context {World : Type}.

Variable json_loads : string -> outcome pyobj.

(** Running a helper, step by step. *)
Ltac step :=
  unfold _ensure_approle_auth_enabled, _generate_secret_id,
    bind, try_except, call, ret, raise, py_not_in.

(** X1. Whenever the Verifier returns, the payload decoded to a JSON
    object, the value returned is the object's ["data"] member (an empty
    mapping when it has none), ["approle"] is in it, and the world is as
    it was; when the value is a mapping, ["approle"] is one of its
    keys. *)
Theorem verifier_return_means_approle_listed
  (payload : string) (w w' : World) (r : pyobj) :
  _ensure_approle_auth_enabled json_loads payload w = (Return r, w') ->
  w' = w /\
  py_in "approle" r = Return true /\
  (forall auth_methods, r = PyDict auth_methods ->
     In "approle" (dict_keys auth_methods)) /\
  exists document,
    json_loads payload = Return (PyDict document) /\
    r = dict_get document "data" (PyDict []).
Proof.
  step.
  destruct (json_loads payload) as [data | e].
  - destruct (py_get data "data" (PyDict [])) as [auth | e] eqn:Hget;
      [ | discriminate].
    destruct (py_in "approle" auth) as [[|] | e] eqn:Hin;
      cbn [negb]; try discriminate.
    intros H. injection H as <- <-.
    repeat split.
    + exact Hin.
    + intros auth_methods ->. cbn [py_in] in Hin.
      injection Hin as Hin. now apply (dict_contains_keys json_loads).
    + destruct data; try discriminate.
      cbn [py_get] in Hget. injection Hget as <-. eauto.
  - destruct (is_JSONDecodeError e); discriminate.
Qed.

(** X2. Whenever the Extractor returns a value, the value is truthy (it
    is not [None], not empty, not zero), it is what the decoded object
    holds at [data.secret_id], and the world is as it was. *)
Theorem extractor_return_is_truthy_secret
  (payload : string) (w w' : World) (v : pyobj) :
  _generate_secret_id json_loads payload w = (Return v, w') ->
  w' = w /\
  truthy v = true /\
  exists document inner,
    json_loads payload = Return (PyDict document) /\
    dict_get document "data" (PyDict []) = PyDict inner /\
    dict_getitem inner "secret_id" = Some v.
Proof.
  step.
  destruct (json_loads payload) as [data | e].
  - destruct data; try discriminate. cbn [py_get].
    destruct (dict_get items "data" (PyDict [])) eqn:Hdata; try discriminate.
    cbn [py_get]. unfold dict_get at 1 2, py_not.
    destruct (dict_getitem items0 "secret_id") as [secret | ] eqn:Hsecret.
    + destruct (truthy secret) eqn:Htruthy; cbn [negb]; [ | discriminate].
      intros H. injection H as <- <-.
      repeat split; [exact Htruthy | eauto].
    + cbn. discriminate.
  - destruct (is_JSONDecodeError e); discriminate.
Qed.

(** X3. Only a [JSONDecodeError] is turned into a [VaultBootstrapError]:
    any other exception the decoder raises leaves both helpers as it
    is. *)
Theorem other_decoder_errors_pass_through
  (payload : string) (w : World) (e : exn) :
  json_loads payload = Raise e ->
  is_JSONDecodeError e = false ->
  _ensure_approle_auth_enabled json_loads payload w = (Raise e, w) /\
  _generate_secret_id json_loads payload w = (Raise e, w).
Proof.
  intros Hloads Hcls. step. now rewrite Hloads, Hcls.
Qed.

(** X4. A payload that decodes to anything but a JSON object (an array,
    a string, a number, [true], [false], [null]): both helpers fail with
    the [AttributeError] of the missing [get] method, named after the
    type of the decoded value. *)
Theorem non_object_document_raises_attribute_error
  (payload : string) (w : World) (data : pyobj) :
  json_loads payload = Return data ->
  is_dict data = false ->
  _ensure_approle_auth_enabled json_loads payload w =
    (Raise (AttributeError (type_name data) "get"), w) /\
  _generate_secret_id json_loads payload w =
    (Raise (AttributeError (type_name data) "get"), w).
Proof.
  intros Hloads Hshape. step. rewrite Hloads.
  destruct data; try discriminate; split; reflexivity.
Qed.

(** X5. A JSON object whose ["data"] member is no mapping: the Extractor
    fails with the [AttributeError] of the missing [get] method, named
    after the member's type; and when the member is no string and no
    array either, the Verifier fails with the [TypeError] of a
    membership test on that type. *)
Theorem non_mapping_data_raises
  (payload : string) (w : World)
  (document : list (string * pyobj)) (v : pyobj) :
  json_loads payload = Return (PyDict document) ->
  dict_getitem document "data" = Some v ->
  is_dict v = false ->
  _generate_secret_id json_loads payload w =
    (Raise (AttributeError (type_name v) "get"), w) /\
  ((forall s, v <> PyStr s) -> (forall items, v <> PyList items) ->
   _ensure_approle_auth_enabled json_loads payload w =
     (Raise (TypeError (type_name v)), w)).
Proof.
  intros Hloads Hdata Hshape. step. rewrite Hloads.
  cbn [py_get]. unfold dict_get. rewrite Hdata.
  destruct v; try discriminate; split; try reflexivity;
    intros Hstr Hlist; try reflexivity.
  - now contradiction (Hstr s).
  - now contradiction (Hlist items).
Qed.

(** X6. A JSON object whose ["data"] member is a string that does not
    have ["approle"] as a substring, or an array that does not have it
    as an element: the Verifier fails with the "not enabled" error. *)
Theorem verifier_rejects_container_without_approle
  (payload : string) (w : World)
  (document : list (string * pyobj)) (v : pyobj) :
  json_loads payload = Return (PyDict document) ->
  dict_getitem document "data" = Some v ->
  ((exists s, v = PyStr s /\ ~ (exists a b, s = a ++ "approle" ++ b)) \/
   (exists items, v = PyList items /\ ~ In (PyStr "approle") items)) ->
  _ensure_approle_auth_enabled json_loads payload w =
    (Raise
       (VaultBootstrapError
          "AppRole authentication is not enabled for the target Vault" None),
     w).
Proof.
  intros Hloads Hdata Hout. step. rewrite Hloads.
  cbn [py_get]. unfold dict_get. rewrite Hdata.
  destruct Hout as [[s [-> Hsub]] | [items [-> Hin]]]; cbn [py_in].
  - destruct (str_contains s "approle") eqn:Hc; [ | reflexivity].
    apply str_contains_substring in Hc. contradiction.
  - destruct (list_contains items "approle") eqn:Hc; [ | reflexivity].
    apply list_contains_element in Hc. contradiction.
Qed.

(** X7. With a decoder that returns or raises [JSONDecodeError], the
    message of a [VaultBootstrapError] tells its cause.  From the
    Verifier: the "decode" message comes with the decoder's error as
    cause, the "not enabled" message with no cause and a payload that
    decoded to a JSON object; and likewise from the Extractor with its
    own "decode" message and the "missing secret_id" message.  Neither
    helper raises a [VaultBootstrapError] with any other message. *)
Theorem bootstrap_message_tells_the_cause
  (payload : string) (w w' : World) (msg : string) (cause : option exn) :
  ((exists data, json_loads payload = Return data) \/
   (exists m pos, json_loads payload = Raise (JSONDecodeError m pos))) ->
  (_ensure_approle_auth_enabled json_loads payload w =
     (Raise (VaultBootstrapError msg cause), w') ->
   (msg = "Failed to decode Vault response whilst verifying AppRole auth" /\
    exists m pos,
      cause = Some (JSONDecodeError m pos) /\
      json_loads payload = Raise (JSONDecodeError m pos)) \/
   (msg = "AppRole authentication is not enabled for the target Vault" /\
    cause = None /\
    exists document, json_loads payload = Return (PyDict document))) /\
  (_generate_secret_id json_loads payload w =
     (Raise (VaultBootstrapError msg cause), w') ->
   (msg = "Failed to decode Vault response whilst generating a secret-id" /\
    exists m pos,
      cause = Some (JSONDecodeError m pos) /\
      json_loads payload = Raise (JSONDecodeError m pos)) \/
   (msg = "Vault response missing secret_id field" /\
    cause = None /\
    exists document, json_loads payload = Return (PyDict document))).
Proof.
  intros [[data Hloads] | [m [pos Hloads]]]; step; rewrite Hloads.
  - split.
    + destruct data; try discriminate. cbn [py_get].
      destruct (dict_get items "data" (PyDict [])); cbn [py_in];
        try discriminate;
        match goal with
        | |- context [negb ?b] => destruct b
        end; cbn [negb]; try discriminate;
        intros H; injection H as <- <- _; right; eauto.
    + destruct data; try discriminate. cbn [py_get].
      destruct (dict_get items "data" (PyDict [])); cbn [py_get];
        try discriminate.
      match goal with
      | |- context [py_not ?v] => destruct (py_not v)
      end; [ | discriminate].
      intros H. injection H as <- <- _. right. eauto.
  - cbn [is_JSONDecodeError].
    split; intros H; injection H as <- <- _; left; eauto.
Qed.

(** X8. Whenever the Extractor returns a value, the Verifier run on the
    same payload neither fails to decode nor meets a wrong shape: it
    returns the mapping that holds the secret-id when ["approle"] is one
    of its keys, and fails with the "not enabled" error when it is
    not. *)
Theorem extractor_success_bounds_verifier
  (payload : string) (w w' : World) (v : pyobj) :
  _generate_secret_id json_loads payload w = (Return v, w') ->
  exists inner,
    dict_getitem inner "secret_id" = Some v /\
    ((In "approle" (dict_keys inner) /\
      _ensure_approle_auth_enabled json_loads payload w =
        (Return (PyDict inner), w)) \/
     (~ In "approle" (dict_keys inner) /\
      _ensure_approle_auth_enabled json_loads payload w =
        (Raise
           (VaultBootstrapError
              "AppRole authentication is not enabled for the target Vault"
              None), w))).
Proof.
  step.
  destruct (json_loads payload) as [data | e];
    [ | destruct (is_JSONDecodeError e); discriminate].
  destruct data; try discriminate. cbn [py_get].
  destruct (dict_get items "data" (PyDict [])) as [ | | | | | | inner];
    try discriminate.
  cbn [py_get py_in]. unfold dict_get, py_not.
  destruct (dict_getitem inner "secret_id") as [secret | ] eqn:Hsecret;
    [ | cbn; discriminate].
  destruct (truthy secret); cbn [negb]; [ | discriminate].
  intros H. injection H as <- _.
  exists inner. split; [exact Hsecret | ].
  destruct (dict_contains inner "approle") eqn:Hin.
  - left. split; [now apply (dict_contains_keys json_loads) | reflexivity].
  - right. split; [ | reflexivity].
    intros Hkey. apply (dict_contains_keys json_loads) in Hkey. congruence.
Qed.

(** X9. [VaultBootstrapError] derives from [RuntimeError].  When
    [json.loads] raises [JSONDecodeError], or returns a JSON object
    whose ["data"] member is absent or a mapping, every exception that
    leaves a helper is a [RuntimeError] and no [ValueError], although
    the decoder's own [JSONDecodeError] is a [ValueError]. *)
Theorem failures_are_runtime_errors
  (payload : string) (w w' : World) (e : exn) :
  ((exists msg pos, json_loads payload = Raise (JSONDecodeError msg pos)) \/
   (exists document inner,
      json_loads payload = Return (PyDict document) /\
      dict_get document "data" (PyDict []) = PyDict inner)) ->
  (_ensure_approle_auth_enabled json_loads payload w = (Raise e, w') \/
   _generate_secret_id json_loads payload w = (Raise e, w')) ->
  isinstance e cls.RuntimeError = true /\
  isinstance e cls.ValueError = false /\
  (forall msg pos,
     isinstance (JSONDecodeError msg pos) cls.ValueError = true /\
     isinstance (JSONDecodeError msg pos) cls.RuntimeError = false).
Proof.
  intros Hshape Hfail.
  assert (Hkind : exists msg cause, e = VaultBootstrapError msg cause).
  { revert Hfail.
    destruct Hshape as [[msg [pos Hloads]] | [document [inner [Hloads Hdata]]]];
      step; rewrite Hloads.
    - cbn [is_JSONDecodeError].
      intros [H | H]; injection H as <- _; eauto.
    - cbn [py_get]. rewrite Hdata. cbn [py_in py_get].
      intros [H | H].
      + destruct (dict_contains inner "approle");
          cbn [negb] in H; [discriminate | ].
        injection H as <- _. eauto.
      + destruct (py_not (dict_get inner "secret_id" PyNone));
          [ | discriminate].
        injection H as <- _. eauto. }
  destruct Hkind as [msg [cause ->]].
  repeat split; reflexivity.
Qed.

(** X10. For a JSON object whose ["data"] member is absent or a mapping,
    the Extractor fails with the "missing secret_id" error exactly when
    [secret_id] is absent from the mapping or is one of [null], [false],
    the integer [0], a floating-point zero of either sign, the empty
    string, the empty array and the empty object. *)
Theorem extractor_rejects_exactly_the_falsy
  (payload : string) (w : World)
  (document inner : list (string * pyobj)) :
  json_loads payload = Return (PyDict document) ->
  dict_get document "data" (PyDict []) = PyDict inner ->
  (_generate_secret_id json_loads payload w =
     (Raise (VaultBootstrapError "Vault response missing secret_id field" None),
      w)
   <->
   (dict_getitem inner "secret_id" = None \/
    exists v,
      dict_getitem inner "secret_id" = Some v /\
      (v = PyNone \/ v = PyBool false \/ v = PyInt 0 \/
       (exists sign, v = PyFloat (S754_zero sign)) \/
       v = PyStr "" \/ v = PyList [] \/ v = PyDict []))).
Proof.
  intros Hloads Hdata. step. rewrite Hloads.
  cbn [py_get]. rewrite Hdata. cbn [py_get]. unfold dict_get, py_not.
  destruct (dict_getitem inner "secret_id") as [v | ].
  - split.
    + intros H. right. exists v. split; [reflexivity | ].
      destruct v as [ | [|] | n | x | s | items | items]; cbn in H;
        try discriminate; auto.
      * destruct n; try discriminate. auto.
      * destruct x; try discriminate. eauto 6.
      * destruct s; try discriminate. auto 7.
      * destruct items; try discriminate. auto 8.
      * destruct items; try discriminate. auto 9.
    + intros [H | [v' [Hv Hfalsy]]]; [discriminate | ].
      injection Hv as <-.
      destruct Hfalsy as [-> | [-> | [-> | [[sign ->] | [-> | [-> | ->]]]]]];
        reflexivity.
  - split; [auto | reflexivity].
Qed.

End Behaviour.

(** ** A response through the decoder *)

Lemma scanstring_plain_text (begin s rest : string) :
  plain_text s = true ->
  json.scanstring begin (s ++ String json.quote rest) = json.Ok (s, rest).
Proof.
  unfold plain_text.
  induction s as [|c s IH]; cbn [list_ascii_of_string forallb append].
  - intros _. cbn [json.scanstring]. now rewrite Ascii.eqb_refl.
  - rewrite andb_true_iff. intros [Hc Hs]. specialize (IH Hs).
    unfold plain in Hc. rewrite !andb_true_iff, !negb_true_iff in Hc.
    destruct Hc as [[Hq Hb] Hctl].
    assert (Hctl' : (nat_of_ascii c <=? 31)%nat = false).
    { apply Nat.ltb_ge in Hctl. apply Nat.leb_gt. lia. }
    cbn [json.scanstring]. rewrite Hq, Hb, Hctl', IH. reflexivity.
Qed.

(** A string of plain text between quotation marks scans to itself. *)
Lemma scan_once_plain_string (steps headroom max_str_digits : nat)
  (s rest : string) :
  plain_text s = true ->
  json.scan_once (S steps) headroom max_str_digits
    (String json.quote (s ++ String json.quote rest)) =
    json.Ok (PyStr s, rest).
Proof.
  intros Hplain. cbn [json.scan_once].
  rewrite Ascii.eqb_refl. now rewrite scanstring_plain_text.
Qed.

(** The last member of an object: its name, a colon, a blank, its value,
    and the closing brace. *)
Lemma object_pairs_last_member (steps headroom max_str_digits : nat)
  (key value_text rest : string) (value : pyobj) :
  plain_text key = true ->
  json.skip_whitespace value_text = value_text ->
  json.scan_once steps headroom max_str_digits value_text =
    json.Ok (value, String "}" rest) ->
  json.object_pairs (S steps) headroom max_str_digits
    (String json.quote
       (key ++ String json.quote (String ":" (String " " value_text)))) =
    json.Ok ([(key, value)], rest).
Proof.
  intros Hkey Hws Hvalue. cbn [json.object_pairs].
  rewrite scanstring_plain_text by exact Hkey.
  change (json.skip_whitespace (String ":" (String " " value_text)))
    with (String ":" (String " " value_text)).
  change (Ascii.eqb ":" ":") with true. cbv iota.
  change (json.skip_whitespace (String " " value_text))
    with (json.skip_whitespace value_text).
  rewrite Hws, Hvalue. reflexivity.
Qed.

(** An object with members, from its opening brace. *)
Lemma scan_once_object (steps headroom max_str_digits : nat)
  (members rest : string) (pairs : list (string * pyobj)) :
  json.object_pairs steps headroom max_str_digits
    (String json.quote members) = json.Ok (pairs, rest) ->
  json.scan_once (S steps) (S headroom) max_str_digits
    (String "{" (String json.quote members)) =
    json.Ok (PyDict (dict_of_pairs pairs), rest).
Proof.
  intros Hpairs. cbn [json.scan_once].
  change (Ascii.eqb "{" json.quote) with false.
  change (Ascii.eqb "{" "{") with true. cbv iota.
  change (json.skip_whitespace (String json.quote members))
    with (String json.quote members).
  cbv beta iota.
  change (Ascii.eqb json.quote "}") with false.
  rewrite Ascii.eqb_refl, Hpairs. reflexivity.
Qed.

Lemma loads_secret_id_response (secret : string) :
  plain_text secret = true ->
  json.loads (secret_id_response secret) =
    Return (PyDict [("data", PyDict [("secret_id", PyStr secret)])]).
Proof.
  intros Hplain.
  assert (Hshape :
    secret_id_response secret =
      String "{"
        (String json.quote
           ("data" ++ String json.quote (String ":" (String " "
              (String "{"
                 (String json.quote
                    ("secret_id" ++ String json.quote (String ":" (String " "
                       (String json.quote
                          (secret ++ String json.quote "}}"))))))))))))
    by reflexivity.
  rewrite Hshape. unfold json.loads, json.loads_in.
  match goal with
  | |- context [json.scan_once ?d _ _ _] => remember d as steps eqn:Hsteps
  end.
  assert (Hdeep : 5 <= steps)
    by (rewrite Hsteps; unfold json.steps_for; cbn [String.length]; lia).
  clear Hsteps.
  do 5 (destruct steps as [|steps]; [lia | ]).
  clear Hdeep.
  match goal with
  | |- context [startswith ?p json.BOM] =>
      change (startswith p json.BOM) with false
  end.
  match goal with
  | |- context [json.skip_whitespace (String "{" ?t)] =>
      change (json.skip_whitespace (String "{" t)) with (String "{" t)
  end.
  change (recursion_headroom fresh_interpreter) with (S (S 992)).
  rewrite (scan_once_object _ _ _ _ ""
             [("data", PyDict [("secret_id", PyStr secret)])]).
  - reflexivity.
  - apply object_pairs_last_member; [reflexivity | reflexivity | ].
    apply (scan_once_object _ _ _ _ "}" [("secret_id", PyStr secret)]).
    apply object_pairs_last_member; [reflexivity | reflexivity | ].
    now apply scan_once_plain_string.
Qed.

(** X11. A response whose body is [{"data": {"secret_id": "<secret>"}}],
    the secret any non-empty text without quotation mark, backslash and
    control character: run on the decoder, the Extractor returns exactly
    that text. *)
Theorem extractor_recovers_secret_from_response
  (World : Type) (w : World) (secret : string) :
  plain_text secret = true ->
  secret <> "" ->
  _generate_secret_id json.loads (secret_id_response secret) w =
    (Return (PyStr secret), w).
Proof.
  intros Hplain Hne.
  unfold _generate_secret_id, bind, try_except, call, ret, raise.
  rewrite (loads_secret_id_response secret Hplain).
  cbn [py_get dict_get dict_getitem String.eqb Ascii.eqb Bool.eqb].
  unfold py_not. destruct secret; [congruence | reflexivity].
Qed.

(** ** The further behaviour at work *)

(** X1 at a payload that lists [approle]. *)
Lemma verifier_return_means_approle_listed_witness :
  _ensure_approle_auth_enabled json.loads
    (doc "{'data': {'token': {}, 'approle': {}}}") environ =
    (Return (PyDict [("token", PyDict []); ("approle", PyDict [])]), environ)
  /\
  In "approle" (dict_keys [("token", PyDict []); ("approle", PyDict [])]).
Proof.
  split; [vm_compute; reflexivity | ].
  refine (proj1 (proj2 (proj2
            (@verifier_return_means_approle_listed _ json.loads
               (doc "{'data': {'token': {}, 'approle': {}}}")
               environ environ
               (PyDict [("token", PyDict []); ("approle", PyDict [])]) _)))
            _ eq_refl).
  vm_compute. reflexivity.
Defined.

(** X2 at the payload of scenario 4. *)
Lemma extractor_return_is_truthy_secret_witness :
  _generate_secret_id json.loads (doc "{'data': {'secret_id': 'abc123'}}")
    environ =
    (Return (PyStr "abc123"), environ)
  /\
  truthy (PyStr "abc123") = true.
Proof.
  split; [vm_compute; reflexivity | ].
  refine (proj1 (proj2
            (@extractor_return_is_truthy_secret _ json.loads
               (doc "{'data': {'secret_id': 'abc123'}}")
               environ environ (PyStr "abc123") _))).
  vm_compute. reflexivity.
Defined.

(** X3 with a decoder that gives up on every document. *)
Lemma other_decoder_errors_pass_through_witness :
  is_JSONDecodeError RecursionError = false
  /\
  _ensure_approle_auth_enabled (fun _ => Raise RecursionError) "[[[]]]"
    environ =
    (Raise RecursionError, environ)
  /\
  _generate_secret_id (fun _ => Raise RecursionError) "[[[]]]" environ =
    (Raise RecursionError, environ).
Proof.
  split; [reflexivity | ].
  apply (@other_decoder_errors_pass_through _ (fun _ => Raise RecursionError)
           "[[[]]]" environ RecursionError); reflexivity.
Defined.

(** X4 at a payload that is a JSON number. *)
Lemma non_object_document_raises_attribute_error_witness :
  json.loads "42" = Return (PyInt 42)
  /\
  _ensure_approle_auth_enabled json.loads "42" environ =
    (Raise (AttributeError "int" "get"), environ)
  /\
  _generate_secret_id json.loads "42" environ =
    (Raise (AttributeError "int" "get"), environ).
Proof.
  split; [vm_compute; reflexivity | ].
  apply (@non_object_document_raises_attribute_error _ json.loads "42"
           environ (PyInt 42)).
  - vm_compute. reflexivity.
  - reflexivity.
Defined.

(** X5 at a payload whose ["data"] member is [null]. *)
Lemma non_mapping_data_raises_witness :
  json.loads (doc "{'data': null}") = Return (PyDict [("data", PyNone)])
  /\
  _generate_secret_id json.loads (doc "{'data': null}") environ =
    (Raise (AttributeError "NoneType" "get"), environ)
  /\
  _ensure_approle_auth_enabled json.loads (doc "{'data': null}") environ =
    (Raise (TypeError "NoneType"), environ).
Proof.
  split; [vm_compute; reflexivity | ].
  destruct (@non_mapping_data_raises _ json.loads (doc "{'data': null}")
              environ [("data", PyNone)] PyNone)
    as [Hx Hv].
  - vm_compute. reflexivity.
  - reflexivity.
  - reflexivity.
  - split; [exact Hx | ].
    apply Hv; intros; discriminate.
Defined.

(** X6 at a payload whose ["data"] member is a string without
    ["approle"]. *)
Lemma verifier_rejects_container_without_approle_witness :
  json.loads (doc "{'data': 'userpass'}") =
    Return (PyDict [("data", PyStr "userpass")])
  /\
  _ensure_approle_auth_enabled json.loads (doc "{'data': 'userpass'}")
    environ =
    (Raise
       (VaultBootstrapError
          "AppRole authentication is not enabled for the target Vault" None),
     environ).
Proof.
  split; [vm_compute; reflexivity | ].
  apply (@verifier_rejects_container_without_approle _ json.loads
           (doc "{'data': 'userpass'}") environ
           [("data", PyStr "userpass")] (PyStr "userpass")).
  - vm_compute. reflexivity.
  - reflexivity.
  - left. exists "userpass". split; [reflexivity | ].
    intros Hsub. apply str_contains_substring in Hsub. discriminate.
Defined.

(** X7 at the payload of scenario 3. *)
Lemma bootstrap_message_tells_the_cause_witness :
  json.loads "not json" = Raise (JSONDecodeError "Expecting value" 0)
  /\
  _ensure_approle_auth_enabled json.loads "not json" environ =
    (Raise
       (VaultBootstrapError
          "Failed to decode Vault response whilst verifying AppRole auth"
          (Some (JSONDecodeError "Expecting value" 0))), environ)
  /\
  (("Failed to decode Vault response whilst verifying AppRole auth" =
      "Failed to decode Vault response whilst verifying AppRole auth" /\
    exists m pos,
      Some (JSONDecodeError "Expecting value" 0) =
        Some (JSONDecodeError m pos) /\
      json.loads "not json" = Raise (JSONDecodeError m pos)) \/
   ("Failed to decode Vault response whilst verifying AppRole auth" =
      "AppRole authentication is not enabled for the target Vault" /\
    Some (JSONDecodeError "Expecting value" 0) = None /\
    exists document, json.loads "not json" = Return (PyDict document))).
Proof.
  split; [vm_compute; reflexivity | ].
  split; [vm_compute; reflexivity | ].
  refine (proj1
            (@bootstrap_message_tells_the_cause _ json.loads "not json"
               environ environ
               "Failed to decode Vault response whilst verifying AppRole auth"
               (Some (JSONDecodeError "Expecting value" 0)) _) _).
  - right. exists "Expecting value", 0. vm_compute. reflexivity.
  - vm_compute. reflexivity.
Defined.

(** X8 at a payload whose ["data"] mapping holds both entries. *)
Lemma extractor_success_bounds_verifier_witness :
  _generate_secret_id json.loads
    (doc "{'data': {'approle': {}, 'secret_id': 's3cr3t'}}") environ =
    (Return (PyStr "s3cr3t"), environ)
  /\
  exists inner,
    dict_getitem inner "secret_id" = Some (PyStr "s3cr3t") /\
    ((In "approle" (dict_keys inner) /\
      _ensure_approle_auth_enabled json.loads
        (doc "{'data': {'approle': {}, 'secret_id': 's3cr3t'}}") environ =
        (Return (PyDict inner), environ)) \/
     (~ In "approle" (dict_keys inner) /\
      _ensure_approle_auth_enabled json.loads
        (doc "{'data': {'approle': {}, 'secret_id': 's3cr3t'}}") environ =
        (Raise
           (VaultBootstrapError
              "AppRole authentication is not enabled for the target Vault"
              None), environ))).
Proof.
  split; [vm_compute; reflexivity | ].
  apply (@extractor_success_bounds_verifier _ json.loads _ environ environ).
  vm_compute. reflexivity.
Defined.

(** X9 at the payload of scenario 3. *)
Lemma failures_are_runtime_errors_witness :
  json.loads "not json" = Raise (JSONDecodeError "Expecting value" 0)
  /\
  _ensure_approle_auth_enabled json.loads "not json" environ =
    (Raise
       (VaultBootstrapError
          "Failed to decode Vault response whilst verifying AppRole auth"
          (Some (JSONDecodeError "Expecting value" 0))), environ)
  /\
  isinstance
    (VaultBootstrapError
       "Failed to decode Vault response whilst verifying AppRole auth"
       (Some (JSONDecodeError "Expecting value" 0))) cls.RuntimeError = true
  /\
  isinstance
    (VaultBootstrapError
       "Failed to decode Vault response whilst verifying AppRole auth"
       (Some (JSONDecodeError "Expecting value" 0))) cls.ValueError = false.
Proof.
  split; [vm_compute; reflexivity | ].
  split; [vm_compute; reflexivity | ].
  destruct (@failures_are_runtime_errors _ json.loads "not json"
              environ environ
              (VaultBootstrapError
                 "Failed to decode Vault response whilst verifying AppRole auth"
                 (Some (JSONDecodeError "Expecting value" 0))))
    as (Hr & Hv & _).
  - left. exists "Expecting value", 0. vm_compute. reflexivity.
  - left. vm_compute. reflexivity.
  - split; assumption.
Defined.

(** X10 at a payload whose [secret_id] is the integer [0]. *)
Lemma extractor_rejects_exactly_the_falsy_witness :
  json.loads (doc "{'data': {'secret_id': 0}}") =
    Return (PyDict [("data", PyDict [("secret_id", PyInt 0)])])
  /\
  _generate_secret_id json.loads (doc "{'data': {'secret_id': 0}}") environ =
    (Raise (VaultBootstrapError "Vault response missing secret_id field" None),
     environ).
Proof.
  split; [vm_compute; reflexivity | ].
  refine (proj2
            (@extractor_rejects_exactly_the_falsy _ json.loads
               (doc "{'data': {'secret_id': 0}}") environ
               [("data", PyDict [("secret_id", PyInt 0)])]
               [("secret_id", PyInt 0)] _ _) _).
  - vm_compute. reflexivity.
  - reflexivity.
  - right. exists (PyInt 0). split; [reflexivity | auto].
Defined.

(** X11 at a secret-id as Vault issues them. *)
Lemma extractor_recovers_secret_from_response_witness :
  plain_text "84896a0c-1347-aa90-a4f6-aca8b7558780" = true
  /\
  _generate_secret_id json.loads
    (secret_id_response "84896a0c-1347-aa90-a4f6-aca8b7558780") environ =
    (Return (PyStr "84896a0c-1347-aa90-a4f6-aca8b7558780"), environ).
Proof.
  split; [vm_compute; reflexivity | ].
  apply (extractor_recovers_secret_from_response _ environ
           "84896a0c-1347-aa90-a4f6-aca8b7558780").
  - vm_compute. reflexivity.
  - discriminate.
Defined.
